(** * Titanic Insights: the query gateway and the chat orchestrator

    A shallow embedding of [server.ts] (the [POST /api/query] handler) and of
    [src/App.tsx] ([handleSubmit], [renderChart] and the two JSX guards that
    decide what a message shows), with the properties of the specification
    stated and proved over it.

    Layout:
    - [JS]       the fragment of ECMAScript the two files rely on: JSON
                 values, truthiness, own-property reads, [trim],
                 [startsWith], [String], [Number], [Object.keys], spread;
    - [Gateway]  [server.ts], lines 93-113;
    - [Chat]     [src/App.tsx], lines 83-251 and the guards of lines 308, 317;
    - the theorems. *)

From Stdlib Require Import ZArith NArith List String Ascii Bool Lia.
From Stdlib Require Import SpecFloat DecimalString DecimalZ Relations.
Import ListNotations.

Set Warnings "-register-all".

(* ===================================================================== *)
(** * The ECMAScript fragment                                             *)
(* ===================================================================== *)

Module JS.

(** A JavaScript string is a sequence of UTF-16 code units. *)
Definition jsstring := list N.

(** An ASCII literal of the source, as code units. *)
Definition lit (s : string) : jsstring :=
  List.map N_of_ascii (list_ascii_of_string s).

Fixpoint str_eqb (a b : jsstring) : bool :=
  match a, b with
  | [], [] => true
  | x :: a', y :: b' => N.eqb x y && str_eqb a' b'
  | _, _ => false
  end.

(** A JavaScript number is an IEEE 754 binary64 value. *)
Definition number := spec_float.

Definition NaN : number := S754_nan.
Definition pos_zero : number := S754_zero false.

(** The double nearest to the integer [z] (exact below 2^53). *)
Definition number_of_Z (z : Z) : number := binary_normalize 53 1024 z 0 false.

(** The values [JSON.parse] and [express.json()] can produce, plus
    [undefined].  The property list of an object is kept in the order in
    which [Object.keys] enumerates it; keys are pairwise distinct. *)
Inductive jsval :=
| VUndefined
| VNull
| VBool (b : bool)
| VNum (n : number)
| VStr (s : jsstring)
| VArr (elems : list jsval)
| VObj (props : list (jsstring * jsval)).

(** What a [throw] carries: an [Error] instance with its [message], or any
    other value. *)
Inductive thrown :=
| ErrorObject (message : jsstring)
| NonError (v : jsval).

(** The run-time faults the engine raises by itself in the two files.  The
    text of their messages is engine-defined. *)
Inductive fault :=
| NotAFunction (callee : string)
| NullishRead (property : jsstring)
| NullishToObject
| NotPrimitive
| ExpectedString (callee : string).

(** The preferred type handed to [ToPrimitive]. *)
Inductive hint := HintString | HintNumber.

(** ** The exception monad *)

Definition exc (A : Type) : Type := thrown + A.

Definition ret {A} (a : A) : exc A := inr a.
Definition throw {A} (e : thrown) : exc A := inl e.
Definition bind {A B} (m : exc A) (k : A -> exc B) : exc B :=
  match m with
  | inl e => inl e
  | inr a => k a
  end.

Declare Scope exc_scope.
Delimit Scope exc_scope with exc.
Notation "x <- m ;; k" := (bind m (fun x => k))
  (at level 61, m at next level, right associativity) : exc_scope.

Fixpoint mapM {A B} (f : A -> exc B) (l : list A) : exc (list B) :=
  match l with
  | [] => ret []
  | a :: l' => bind (f a) (fun b => bind (mapM f l') (fun bs => ret (b :: bs)))
  end.

(** ** What the host provides

    Built-ins whose definition lives in the language standard or in the
    engine, not in the repository. *)
Class Engine := {
  (** [String.prototype.toUpperCase] *)
  toUpperCase : jsstring -> jsstring;
  (** [Number::toString] *)
  NumberToString : number -> jsstring;
  (** [StringToNumber] *)
  StringToNumber : jsstring -> number;
  (** [ToPrimitive] on an array or object; the result is a primitive *)
  ToPrimitive : hint -> jsval -> exc jsval;
  (** [JSON.parse] *)
  JSON_parse : jsstring -> exc jsval;
  (** the message of an engine-raised [TypeError] *)
  fault_message : fault -> jsstring
}.

Section Builtins.
Context {engine : Engine}.
Local Open Scope exc_scope.

Definition TypeError (f : fault) : thrown := ErrorObject (fault_message f).

(** [!!v] *)
Definition truthy (v : jsval) : bool :=
  match v with
  | VUndefined | VNull => false
  | VBool b => b
  | VNum (S754_zero _) | VNum S754_nan => false
  | VNum _ => true
  | VStr [] => false
  | VStr _ => true
  | VArr _ | VObj _ => true
  end.

Definition nullish (v : jsval) : bool :=
  match v with
  | VUndefined | VNull => true
  | _ => false
  end.

(** Decimal text of a natural number: the name of an array index. *)
Definition decimal (n : nat) : jsstring :=
  lit (NilZero.string_of_uint (Nat.to_uint n)).

(** Decimal text of an integer, as [toString] prints an integral number. *)
Definition decimal_Z (z : Z) : jsstring :=
  lit (NilZero.string_of_int (Z.to_int z)).

(** Own property [k] of an object's property list. *)
Fixpoint lookup (k : jsstring) (props : list (jsstring * jsval)) : option jsval :=
  match props with
  | [] => None
  | (k', v) :: rest => if str_eqb k k' then Some v else lookup k rest
  end.

(** Element of an array under the property name [k], the first index
    being [i]. *)
Fixpoint at_index (k : jsstring) (i : nat) (l : list jsval) : jsval :=
  match l with
  | [] => VUndefined
  | x :: l' => if str_eqb k (decimal i) then x else at_index k (S i) l'
  end.

(** The index properties of an array-like, from index [i] on. *)
Fixpoint indexed (i : nat) (l : list jsval) : list (jsstring * jsval) :=
  match l with
  | [] => []
  | x :: l' => (decimal i, x) :: indexed (S i) l'
  end.

(** The code units of a string as one-unit strings. *)
Definition units (s : jsstring) : list jsval :=
  List.map (fun c => VStr [c]) s.

(** [v[k]] on a value that is neither [null] nor [undefined].  Own
    properties only: the members a value inherits from the built-in
    prototypes ([toString], [map], ...) are functions, which are not JSON
    values; a read that misses every own property yields [undefined]. *)
Definition own (v : jsval) (k : jsstring) : jsval :=
  match v with
  | VObj props =>
      match lookup k props with
      | Some x => x
      | None => VUndefined
      end
  | VArr l =>
      if str_eqb k (lit "length") then VNum (number_of_Z (Z.of_nat (List.length l)))
      else at_index k 0 l
  | VStr s =>
      if str_eqb k (lit "length") then VNum (number_of_Z (Z.of_nat (List.length s)))
      else at_index k 0 (units s)
  | _ => VUndefined
  end.

(** [v[k]] / [v.k]: a [TypeError] on [null] and [undefined]. *)
Definition get (v : jsval) (k : jsstring) : exc jsval :=
  if nullish v then throw (TypeError (NullishRead k)) else ret (own v k).

(** [v?.k] *)
Definition get_opt (v : jsval) (k : jsstring) : jsval :=
  if nullish v then VUndefined else own v k.

(** [Object.keys(v)] *)
Definition Object_keys (v : jsval) : exc (list jsstring) :=
  match v with
  | VUndefined | VNull => throw (TypeError NullishToObject)
  | VObj props => ret (List.map fst props)
  | VArr l => ret (List.map fst (indexed 0 l))
  | VStr s => ret (List.map fst (indexed 0 (units s)))
  | VBool _ | VNum _ => ret []
  end.

(** The own enumerable properties that [{...v}] copies. *)
Definition spread (v : jsval) : list (jsstring * jsval) :=
  match v with
  | VObj props => props
  | VArr l => indexed 0 l
  | VStr s => indexed 0 (units s)
  | _ => []
  end.

(** [String(v)] on a primitive. *)
Definition String_prim (v : jsval) : exc jsstring :=
  match v with
  | VUndefined => ret (lit "undefined")
  | VNull => ret (lit "null")
  | VBool true => ret (lit "true")
  | VBool false => ret (lit "false")
  | VNum n => ret (NumberToString n)
  | VStr s => ret s
  | VArr _ | VObj _ => throw (TypeError NotPrimitive)
  end.

(** [Number(v)] on a primitive. *)
Definition Number_prim (v : jsval) : exc number :=
  match v with
  | VUndefined => ret NaN
  | VNull => ret pos_zero
  | VBool true => ret (number_of_Z 1)
  | VBool false => ret pos_zero
  | VNum n => ret n
  | VStr s => ret (StringToNumber s)
  | VArr _ | VObj _ => throw (TypeError NotPrimitive)
  end.

(** [String(v)] *)
Definition String_ (v : jsval) : exc jsstring :=
  match v with
  | VArr _ | VObj _ => p <- ToPrimitive HintString v ;; String_prim p
  | _ => String_prim v
  end.

(** [Number(v)] *)
Definition Number_ (v : jsval) : exc number :=
  match v with
  | VArr _ | VObj _ => p <- ToPrimitive HintNumber v ;; Number_prim p
  | _ => Number_prim v
  end.

(** [v > 0] *)
Definition gt_zero (v : jsval) : exc bool :=
  n <- Number_ v ;; ret (SFltb pos_zero n).

(** [v.length > 0]; the [length] of an array or of a string is the number
    of its elements. *)
Definition length_positive (v : jsval) : exc bool :=
  match v with
  | VArr l => ret (0 <? List.length l)
  | VStr s => ret (0 <? List.length s)
  | _ => gt_zero (own v (lit "length"))
  end.

(** The scalars a store cell can hold: neither an array nor an object. *)
Definition scalar (v : jsval) : bool :=
  match v with
  | VArr _ | VObj _ => false
  | _ => true
  end.

(** [v !== s] for a string literal [s] *)
Definition strict_neq_str (v : jsval) (s : jsstring) : bool :=
  match v with
  | VStr t => negb (str_eqb t s)
  | _ => true
  end.

(** *** [String.prototype.trim] and [startsWith] *)

(** White space and line terminators of the language. *)
Definition is_white_space (c : N) : bool :=
  ((9 <=? c) && (c <=? 13) || (c =? 32) || (c =? 160) || (c =? 5760)
   || (8192 <=? c) && (c <=? 8202) || (c =? 8232) || (c =? 8233)
   || (c =? 8239) || (c =? 8287) || (c =? 12288) || (c =? 65279))%N.

Fixpoint trimStart (s : jsstring) : jsstring :=
  match s with
  | [] => []
  | c :: s' => if is_white_space c then trimStart s' else s
  end.

Definition trimEnd (s : jsstring) : jsstring := rev (trimStart (rev s)).

Definition trim (s : jsstring) : jsstring := trimEnd (trimStart s).

Fixpoint startsWith (s p : jsstring) : bool :=
  match p, s with
  | [], _ => true
  | _ :: _, [] => false
  | x :: p', y :: s' => N.eqb y x && startsWith s' p'
  end.

End Builtins.

End JS.

(* ===================================================================== *)
(** * The query gateway ([server.ts])                                     *)
(* ===================================================================== *)

Module Gateway.
Import JS.

(** A result row of the tabular store: column name to scalar value. *)
Definition Row := list (jsstring * jsval).

(** What the handler does to the outside world, in order. *)
Inductive Effect :=
| ConsoleLog (v : jsval)          (* console.log("Executing SQL:", sql) *)
| ConsoleError (e : thrown)       (* console.error("SQL Execution Error:", error) *)
| StoreQuery (sql : jsstring).    (* db.prepare(sql).all() *)

Definition is_store_query (e : Effect) : bool :=
  match e with
  | StoreQuery _ => true
  | _ => false
  end.

(** The number of times the store was queried. *)
Definition store_queries (t : list Effect) : nat :=
  List.length (filter is_store_query t).

(** What [res.status(..).json(..)] sends. *)
Record Response := { status : nat; body : jsval }.

(** ** A monad for the handler: exceptions over an effect log *)

Definition M (A : Type) : Type := list Effect -> exc A * list Effect.

Definition pure {A} (a : A) : M A := fun t => (inr a, t).
Definition raise {A} (e : thrown) : M A := fun t => (inl e, t).
Definition emit (e : Effect) : M unit := fun t => (inr tt, t ++ [e]).
Definition lift {A} (m : exc A) : M A := fun t => (m, t).
Definition andThen {A B} (m : M A) (k : A -> M B) : M B :=
  fun t =>
    match m t with
    | (inl e, t') => (inl e, t')
    | (inr a, t') => k a t'
    end.
Definition try_catch {A} (m : M A) (h : thrown -> M A) : M A :=
  fun t =>
    match m t with
    | (inl e, t') => h e t'
    | (inr a, t') => (inr a, t')
    end.

Declare Scope gw_scope.
Delimit Scope gw_scope with gw.
Notation "x <- m ;; k" := (andThen m (fun x => k))
  (at level 61, m at next level, right associativity) : gw_scope.
Notation "m ;; k" := (andThen m (fun _ => k))
  (at level 61, right associativity) : gw_scope.

Section Handler.
Context {engine : Engine}.

(** [db.prepare(sql).all()] on the in-memory table: all rows, or the
    message of the error the store throws. *)
Variable db : jsstring -> jsstring + list Row.

Local Open Scope gw_scope.

(** [sql.trim()]: only a string has a [trim] method. *)
Definition call_trim (sql : jsval) : M jsstring :=
  match sql with
  | VStr s => pure (trim s)
  | _ => raise (TypeError (NotAFunction "sql.trim"))
  end.

(** [db.prepare(sql).all()] *)
Definition prepare_all (sql : jsval) : M (list Row) :=
  match sql with
  | VStr s =>
      emit (StoreQuery s) ;;
      match db s with
      | inl message => raise (ErrorObject message)
      | inr rows => pure rows
      end
  | _ => raise (TypeError (ExpectedString "db.prepare"))
  end.

(** [(error as Error).message] *)
Definition error_message (e : thrown) : M jsval :=
  match e with
  | ErrorObject message => pure (VStr message)
  | NonError v => lift (get v (lit "message"))
  end.

Definition json_error (message : jsval) : jsval :=
  VObj [(lit "error", message)].

Definition json_data (rows : list Row) : jsval :=
  VObj [(lit "data", VArr (List.map VObj rows))].

(** Lines 98-108: the body of the [try]. *)
Definition try_block (sql : jsval) : M Response :=
  if negb (truthy sql) then
    pure {| status := 400; body := json_error (VStr (lit "No SQL query provided")) |}
  else
    t <- call_trim sql ;;
    if negb (startsWith (toUpperCase t) (lit "SELECT")) then
      pure {| status := 403;
              body := json_error (VStr (lit "Only SELECT queries are allowed")) |}
    else
      rows <- prepare_all sql ;;
      pure {| status := 200; body := json_data rows |}.

(** Lines 109-112: the [catch]. *)
Definition catch_block (error : thrown) : M Response :=
  emit (ConsoleError error) ;;
  message <- error_message error ;;
  pure {| status := 500; body := json_error message |}.

(** [app.post("/api/query", ...)], lines 93-113, on the parsed request
    body.  [inl] is a rejection that escapes the handler. *)
Definition post_api_query (req_body : jsval) : M Response :=
  sql <- lift (get req_body (lit "sql")) ;;
  emit (ConsoleLog sql) ;;
  try_catch (try_block sql) catch_block.

(** The handler run from an empty log. *)
Definition serve (req_body : jsval) : exc Response * list Effect :=
  post_api_query req_body [].

End Handler.

End Gateway.

(* ===================================================================== *)
(** * The chat orchestrator ([src/App.tsx])                               *)
(* ===================================================================== *)

Module Chat.
Import JS.

(** ** Data (lines 30-52) *)

Record ChartData := { name : jsstring; value : number }.

(** [{ ...result.chart, data: chartData }]: the properties copied from the
    plan's chart directive (any [data] among them is overwritten), and the
    resolved data points. *)
Record Chart := {
  directive : list (jsstring * jsval);
  data : list ChartData
}.

Inductive Role := user | assistant.

(** A missing [chart] is [None]; a missing [sql] is [undefined]. *)
Record Message := {
  id : jsstring;
  role : Role;
  content : jsval;
  chart : option Chart;
  sql : jsval;
  timestamp : Z
}.

Definition is_assistant (m : Message) : bool :=
  match role m with
  | assistant => true
  | user => false
  end.

(** The number of assistant messages in a history. *)
Definition assistant_count (history : list Message) : nat :=
  List.length (filter is_assistant history).

(** The three [useState] cells of the component. *)
Record State := {
  input : jsstring;
  messages : list Message;
  isLoading : bool
}.

(** [setMessages((prev) => [...prev, m])] *)
Definition setMessages_append (m : Message) (st : State) : State :=
  {| input := input st; messages := messages st ++ [m]; isLoading := isLoading st |}.

Definition setInput (v : jsstring) (st : State) : State :=
  {| input := v; messages := messages st; isLoading := isLoading st |}.

Definition setIsLoading (b : bool) (st : State) : State :=
  {| input := input st; messages := messages st; isLoading := b |}.

(** The readings of the clock in one synchronous stretch of the handler:
    [Date.now()] and [new Date()], in milliseconds. *)
Record Clock := { Date_now : Z; new_Date : Z }.

(** ** The outside world *)

(** How lines 121-148 end: with a throw (of [new GoogleGenAI(..)] or of the
    awaited [ai.models.generateContent(..)], both inside the [try]), or with
    a response, whose [text] may be [undefined]. *)
Inductive PlannerOutcome :=
| PlannerThrows (e : thrown)
| PlannerResponse (text : option jsstring).

(** The [Response] of [fetch]: its [ok] flag and how [json()] settles. *)
Record QueryResponse := { ok : bool; json : exc jsval }.

(** How [await fetch('/api/query', ..)] settles. *)
Definition FetchOutcome := exc QueryResponse.

(** ** The suspension points of [handleSubmit] *)

Inductive Awaiting :=
| AwaitingPlan (currentInput : jsstring)                    (* line 126 *)
| AwaitingQueryResult (result : jsval) (request_sql : jsval) (* line 154 *)
| AwaitingBody (result : jsval) (queryResponse : QueryResponse). (* line 161 *)

(** How a stretch of the [try] block ends: at the next [await], or at
    [setMessages((prev) => [...prev, assistantMessage])] (line 183). *)
Inductive Next :=
| Await (a : Awaiting)
| Append (assistantMessage : Message).

Section Orchestrator.
Context {engine : Engine}.
Local Open Scope exc_scope.

Fixpoint remove_key (k : jsstring) (props : list (jsstring * jsval))
  : list (jsstring * jsval) :=
  match props with
  | [] => []
  | (k', v) :: rest =>
      if str_eqb k k' then remove_key k rest else (k', v) :: remove_key k rest
  end.

(** [data.map(f)]: only an array has a [map] method. *)
Definition array_map {B} (f : jsval -> exc B) (data : jsval) : exc (list B) :=
  match data with
  | VArr rows => mapM f rows
  | _ => throw (TypeError (NotAFunction "data.map"))
  end.

(** Lines 165-168: the callback of [data.map]. *)
Definition point_of (keys : list jsstring) (row : jsval) : exc ChartData :=
  first <- get row (nth 0 keys []) ;;
  n <- String_ first ;;
  second <- get row (nth 1 keys []) ;;
  v <- Number_ second ;;
  ret {| name := n; value := v |}.

(** Lines 151, 162-170: [chartData] for the [data] of a gateway reply. *)
Definition chartData_of (data : jsval) : exc (list ChartData) :=
  if truthy data then
    nonempty <- length_positive data ;;
    if (nonempty : bool) then
      keys <- Object_keys (own data (lit "0")) ;;
      if 2 <=? List.length keys then array_map (point_of keys) data
      else ret []
    else ret []
  else ret [].

(** Lines 174-181. *)
Definition assistantMessage (clk : Clock) (result : jsval)
  (chartData : list ChartData) : exc Message :=
  answer <- get result (lit "answer") ;;
  plan_chart <- get result (lit "chart") ;;
  plan_sql <- get result (lit "sql") ;;
  ret {| id := decimal_Z (Date_now clk + 1);
         role := assistant;
         content := answer;
         chart :=
           if strict_neq_str (get_opt plan_chart (lit "type")) (lit "none")
           then Some {| directive := remove_key (lit "data") (spread plan_chart);
                        data := chartData |}
           else None;
         sql := plan_sql;
         timestamp := new_Date clk |}.

(** Lines 186-191. *)
Definition errorMessage (clk : Clock) (error : thrown) : Message :=
  {| id := decimal_Z (Date_now clk + 1);
     role := assistant;
     content :=
       VStr (lit "I'm sorry, I encountered an error: "
             ++ match error with
                | ErrorObject message => message
                | NonError _ => lit "Unknown error"
                end
             ++ lit ".");
     chart := None;
     sql := VUndefined;
     timestamp := new_Date clk |}.

(** [response.text || "{}"] *)
Definition text_or_empty_object (text : option jsstring) : jsstring :=
  match text with
  | Some (c :: s) => c :: s
  | _ => lit "{}"
  end.

(** Lines 150-158 and 174-181: from the planner's reply to the [fetch], or
    to the assistant message when the plan has no query. *)
Definition after_plan (clk : Clock) (o : PlannerOutcome) : exc Next :=
  match o with
  | PlannerThrows e => throw e
  | PlannerResponse text =>
      result <- JSON_parse (text_or_empty_object text) ;;
      plan_sql <- get result (lit "sql") ;;
      if truthy plan_sql then ret (Await (AwaitingQueryResult result plan_sql))
      else m <- assistantMessage clk result [] ;; ret (Append m)
  end.

(** Lines 160-161 and 174-181: from the gateway's reply to [json()], or to
    the assistant message when the reply is not OK. *)
Definition after_fetch (clk : Clock) (result : jsval) (o : FetchOutcome)
  : exc Next :=
  queryResponse <- o ;;
  if ok queryResponse then ret (Await (AwaitingBody result queryResponse))
  else m <- assistantMessage clk result [] ;; ret (Append m).

(** Lines 161-181: from the parsed body to the assistant message. *)
Definition after_body (clk : Clock) (result : jsval)
  (queryResponse : QueryResponse) : exc Next :=
  reply <- json queryResponse ;;
  rows <- get reply (lit "data") ;;
  chartData <- chartData_of rows ;;
  m <- assistantMessage clk result chartData ;;
  ret (Append m).

(** Lines 183-195: what the [try]/[catch]/[finally] does with the end of a
    stretch. *)
Definition settle (clk : Clock) (r : exc Next) (st : State)
  : State * option Awaiting :=
  match r with
  | inr (Await a) => (st, Some a)
  | inr (Append m) => (setIsLoading false (setMessages_append m st), None)
  | inl error =>
      (setIsLoading false (setMessages_append (errorMessage clk error) st), None)
  end.

(** Lines 108-113. *)
Definition userMessage (clk : Clock) (typed : jsstring) : Message :=
  {| id := decimal_Z (Date_now clk);
     role := user;
     content := VStr typed;
     chart := None;
     sql := VUndefined;
     timestamp := new_Date clk |}.

(** Lines 104-126: [handleSubmit] up to its first [await]. *)
Definition handleSubmit (clk : Clock) (st : State) : State * option Awaiting :=
  if negb (truthy (VStr (trim (input st)))) || isLoading st then (st, None)
  else
    let currentInput := input st in
    (setIsLoading true
       (setInput [] (setMessages_append (userMessage clk (input st)) st)),
     Some (AwaitingPlan currentInput)).

(** The state an accepted submission leaves behind (lines 115-118). *)
Definition submitted (clk : Clock) (st : State) : State :=
  setIsLoading true
    (setInput [] (setMessages_append (userMessage clk (input st)) st)).

(** ** Rendering (lines 198-251, 308-317) *)

Inductive ChartKind := BarChart | PieChart | LineChart.

Record RenderedChart := {
  kind : ChartKind;
  title : jsval;
  points : list ChartData
}.

(** [v === s] for a string literal [s] *)
Definition strict_eq_str (v : jsval) (s : jsstring) : bool :=
  negb (strict_neq_str v s).

(** [renderChart], lines 198-251; [None] is [null]. *)
Definition renderChart (c : option Chart) : option RenderedChart :=
  match c with
  | None => None
  | Some c =>
      let type := own (VObj (directive c)) (lit "type") in
      if strict_eq_str type (lit "none") || (List.length (data c) =? 0) then None
      else Some {| kind := if strict_eq_str type (lit "bar") then BarChart
                           else if strict_eq_str type (lit "pie") then PieChart
                           else LineChart;
                   title := own (VObj (directive c)) (lit "title");
                   points := data c |}
  end.

(** What a message shows: its text, the [View SQL Query] disclosure
    ([message.sql && ...], line 308) and the chart
    ([message.chart && renderChart(message.chart)], line 317). *)
Record View := {
  text : jsval;
  disclosure : option jsval;
  figure : option RenderedChart
}.

Definition render_message (m : Message) : View :=
  {| text := content m;
     disclosure := if truthy (sql m) then Some (sql m) else None;
     figure := match chart m with
               | None => None
               | Some c => renderChart (Some c)
               end |}.

(** ** The component as a transition system

    [handleSubmit] is an [async] function: between two of its [await]s any
    other handler of the component may run.  A system state is the React
    state together with the invocations of [handleSubmit] that are suspended
    at an [await]. *)

Record System := { app : State; pending : list Awaiting }.

Definition to_list {A} (o : option A) : list A :=
  match o with
  | Some a => [a]
  | None => []
  end.

(** The suspended invocation between [pre] and [post] has run its next
    stretch, with outcome [r]. *)
Definition resumed (pre post : list Awaiting) (r : State * option Awaiting)
  : System :=
  {| app := fst r; pending := pre ++ to_list (snd r) ++ post |}.

(** The first message of the conversation (lines 86-91). *)
Definition greeting (t0 : Z) : Message :=
  {| id := lit "1";
     role := assistant;
     content := VStr (lit "Hello! I'm your Titanic Data Assistant. I've been updated to run more reliably. Ask me anything about the Titanic dataset!");
     chart := None;
     sql := VUndefined;
     timestamp := t0 |}.

Definition initial (t0 : Z) : System :=
  {| app := {| input := []; messages := [greeting t0]; isLoading := false |};
     pending := [] |}.

Inductive step : System -> System -> Prop :=
| step_change (v : jsstring) (s : System) :
    (* onChange of the text field, or a click on a suggestion *)
    step s {| app := setInput v (app s); pending := pending s |}
| step_submit (clk : Clock) (s : System) :
    (* onSubmit of the form *)
    step s {| app := fst (handleSubmit clk (app s));
              pending := pending s ++ to_list (snd (handleSubmit clk (app s))) |}
| step_plan (clk : Clock) (o : PlannerOutcome) inp pre post st :
    step {| app := st; pending := pre ++ AwaitingPlan inp :: post |}
         (resumed pre post (settle clk (after_plan clk o) st))
| step_fetch (clk : Clock) (o : FetchOutcome) result q pre post st :
    step {| app := st; pending := pre ++ AwaitingQueryResult result q :: post |}
         (resumed pre post (settle clk (after_fetch clk result o) st))
| step_body (clk : Clock) result resp pre post st :
    step {| app := st; pending := pre ++ AwaitingBody result resp :: post |}
         (resumed pre post (settle clk (after_body clk result resp) st)).

Inductive reachable : System -> Prop :=
| reach_initial t0 : reachable (initial t0)
| reach_step s s' : reachable s -> step s s' -> reachable s'.

(** ** One turn against a given planner and gateway *)

Record Env := {
  planner : jsstring -> PlannerOutcome;
  fetch_query : jsval -> FetchOutcome;   (* the POST of [{ sql }] to /api/query *)
  at_submit : Clock;
  at_reply : Clock
}.

Inductive Call :=
| CallPlanner (contents : jsstring)
| CallGateway (sql : jsval).

Definition is_gateway_call (c : Call) : bool :=
  match c with
  | CallGateway _ => true
  | CallPlanner _ => false
  end.

(** The request that is in flight while the handler waits at [a]. *)
Definition call_of (a : Awaiting) : list Call :=
  match a with
  | AwaitingPlan currentInput => [CallPlanner currentInput]
  | AwaitingQueryResult _ request_sql => [CallGateway request_sql]
  | AwaitingBody _ _ => []
  end.

(** The stretch of the [try] block that follows the suspension [a]. *)
Definition resume (env : Env) (a : Awaiting) : exc Next :=
  match a with
  | AwaitingPlan currentInput =>
      after_plan (at_reply env) (planner env currentInput)
  | AwaitingQueryResult result request_sql =>
      after_fetch (at_reply env) result (fetch_query env request_sql)
  | AwaitingBody result queryResponse =>
      after_body (at_reply env) result queryResponse
  end.

(** An upper bound on the resumptions still ahead of a suspension. *)
Definition rank (a : Awaiting) : nat :=
  match a with
  | AwaitingPlan _ => 3
  | AwaitingQueryResult _ _ => 2
  | AwaitingBody _ _ => 1
  end.

Record Turn := {
  final : State;
  calls : list Call;
  unfinished : option Awaiting
}.

(** Resume the handler until it returns, at most [fuel] times. *)
Fixpoint run (fuel : nat) (env : Env) (st : State) (a : Awaiting) : Turn :=
  match fuel with
  | O => {| final := st; calls := []; unfinished := Some a |}
  | S fuel' =>
      match settle (at_reply env) (resume env a) st with
      | (st', None) => {| final := st'; calls := call_of a; unfinished := None |}
      | (st', Some a') =>
          let t := run fuel' env st' a' in
          {| final := final t; calls := call_of a ++ calls t;
             unfinished := unfinished t |}
      end
  end.

(** A whole turn: the submission and the three possible resumptions. *)
Definition run_turn (env : Env) (st : State) : Turn :=
  match handleSubmit (at_submit env) st with
  | (st', None) => {| final := st'; calls := []; unfinished := None |}
  | (st', Some a) => run 3 env st' a
  end.

(** [point] is the projection of [row]: its name is [String] of the cell
    in the first column [c1], its value [Number] of the cell in the second
    column [c2]. *)
Definition projects (c1 c2 : jsstring) (row : list (jsstring * jsval))
  (point : ChartData) : Prop :=
  exists v1 v2,
    nth_error row 0 = Some (c1, v1)
    /\ nth_error row 1 = Some (c2, v2)
    /\ String_ v1 = inr (name point)
    /\ Number_ v2 = inr (value point).

(** The shape of a history: the greeting, then the finished turns, each a
    user message followed by an assistant message, then the user message
    of the turn in flight, if any. *)
Definition paired (history : list Message) (loading : bool) : Prop :=
  exists t0 turns tail,
    history = greeting t0 :: flat_map (fun p => [fst p; snd p]) turns ++ tail
    /\ Forall (fun p : Message * Message =>
                 role (fst p) = user /\ role (snd p) = assistant) turns
    /\ ((loading = false /\ tail = [])
        \/ (loading = true /\ exists u, tail = [u] /\ role u = user)).

(** The guard of line 106 lets the submission through. *)
Definition accepted (st : State) : bool :=
  truthy (VStr (trim (input st))) && negb (isLoading st).

End Orchestrator.

End Chat.

(* ===================================================================== *)
(** * The gateway behind the orchestrator's [fetch]                       *)
(* ===================================================================== *)

Module Deployment.
Import JS.

Section Wiring.
Context {engine : Engine}.
Variable db : jsstring -> jsstring + list Gateway.Row.

(** [fetch('/api/query', { body: JSON.stringify({ sql }) })] served by the
    handler of [server.ts]: [ok] is a status in 200-299, [json()] yields the
    body the handler sent. *)
Definition fetch_gateway (sql : jsval) : Chat.FetchOutcome :=
  match Gateway.serve db (VObj [(lit "sql", sql)]) with
  | (inr res, _) =>
      inr {| Chat.ok := (200 <=? Gateway.status res) && (Gateway.status res <=? 299);
             Chat.json := inr (Gateway.body res) |}
  | (inl e, _) => inl e
  end.

End Wiring.

End Deployment.

(* ===================================================================== *)
(** * The controls of the page ([src/App.tsx], lines 28, 232, 325-371)  *)
(* ===================================================================== *)

Module View.
Import JS Chat.

(** Line 28. *)
Definition COLORS : list jsstring :=
  [lit "#0088FE"; lit "#00C49F"; lit "#FFBB28"; lit "#FF8042"; lit "#8884d8";
   lit "#82ca9d"].

(** Line 232: [COLORS[index % COLORS.length]], the fill of a pie cell;
    [None] is [undefined]. *)
Definition cell_fill (index : nat) : option jsstring :=
  nth_error COLORS (index mod List.length COLORS).

(** Lines 231-233: [chart.data.map((_, index) => <Cell fill=.. />)]. *)
Definition cell_fills (data : list ChartData) : list (option jsstring) :=
  List.map cell_fill (seq 0 (List.length data)).

(** Line 357: [disabled={isLoading}] on the text field. *)
Definition input_disabled (st : State) : bool := isLoading st.

(** Line 361: [disabled={!input.trim() || isLoading}] on the send button. *)
Definition submit_disabled (st : State) : bool :=
  negb (truthy (VStr (trim (input st)))) || isLoading st.

(** Line 325: [{isLoading && (...)}], the loading bubble. *)
Definition shows_loader (st : State) : bool := isLoading st.

(** Lines 368-371: the three suggestion buttons, each [setInput(suggestion)]. *)
Definition suggestions : list jsstring :=
  [lit "Survival rate by class"; lit "Average age of survivors";
   lit "Embarkation ports"].

End View.

(* ===================================================================== *)
(** * Loading the table ([server.ts], lines 54-75)                        *)
(* ===================================================================== *)

Module Bootstrap.
Import JS.

(** The columns bound by [insert.run], in the order of lines 57-68. *)
Definition columns : list jsstring :=
  [lit "PassengerId"; lit "Survived"; lit "Pclass"; lit "Name"; lit "Sex";
   lit "Age"; lit "SibSp"; lit "Parch"; lit "Ticket"; lit "Fare"; lit "Cabin";
   lit "Embarked"].

(** What the loop of lines 54-71 leaves behind: the table, the argument
    lists it handed to [insert.run], in order, and the error that ended it
    early, if any (the [catch] of line 73 logs it and start-up goes on). *)
Record Loaded (DB : Type) := {
  table : DB;
  attempted : list (list jsval);
  failure : option thrown
}.
Arguments table {DB} _.
Arguments attempted {DB} _.
Arguments failure {DB} _.

Section Load.
Context {engine : Engine}.

(** The state of the table. *)
Variable DB : Type.

(** [insert.run(...)] on a table: the table with the row added, or the
    message of the error the statement throws. *)
Variable insert_run : DB -> list jsval -> jsstring + DB.

(** Lines 57-68: [row.PassengerId, row.Survived, ..., row.Embarked]. *)
Definition bindings (row : jsval) : exc (list jsval) :=
  mapM (get row) columns.

(** Lines 54-71: [for (const row of parsed.data) if (row.PassengerId)
    insert.run(...)], inside the [try] of line 27. *)
Fixpoint load (db : DB) (rows : list jsval) : Loaded DB :=
  match rows with
  | [] => {| table := db; attempted := []; failure := None |}
  | row :: rest =>
      match get row (lit "PassengerId") with
      | inl e => {| table := db; attempted := []; failure := Some e |}
      | inr passengerId =>
          if truthy passengerId then
            match bindings row with
            | inl e => {| table := db; attempted := []; failure := Some e |}
            | inr args =>
                match insert_run db args with
                | inl message =>
                    {| table := db; attempted := [args];
                       failure := Some (ErrorObject message) |}
                | inr db' =>
                    let r := load db' rest in
                    {| table := table r; attempted := args :: attempted r;
                       failure := failure r |}
                end
            end
          else load db rest
      end
  end.

End Load.

End Bootstrap.

(* ===================================================================== *)
(** * A concrete host for the examples                                    *)
(* ===================================================================== *)

Module Sample.
Import JS.

(** A string literal between double quotes. *)
Definition quoted (s : jsstring) : jsstring := [34%N] ++ s ++ [34%N].

(** [toUpperCase] on the ASCII letters; other code units are kept. *)
Definition upper_unit (c : N) : N :=
  if ((97 <=? c) && (c <=? 122))%N then (c - 32)%N else c.

Definition toUpperCase_ascii (s : jsstring) : jsstring := List.map upper_unit s.

(** [Number::toString] on the integral doubles; the examples use no other
    finite number, and this host prints those as [NaN]. *)
Definition NumberToString_integral (n : number) : jsstring :=
  match n with
  | S754_zero _ => lit "0"
  | S754_nan => lit "NaN"
  | S754_infinity false => lit "Infinity"
  | S754_infinity true => lit "-Infinity"
  | S754_finite s m e =>
      let sign (z : Z) := if s then (- z)%Z else z in
      match e with
      | Z0 => decimal_Z (sign (Zpos m))
      | Zpos k => decimal_Z (sign (Zpos m * 2 ^ Zpos k)%Z)
      | Zneg k =>
          if (Zpos m mod 2 ^ Zpos k =? 0)%Z
          then decimal_Z (sign (Zpos m / 2 ^ Zpos k)%Z)
          else lit "NaN"
      end
  end.

Fixpoint digits_value (acc : Z) (s : jsstring) : option Z :=
  match s with
  | [] => Some acc
  | c :: s' =>
      if ((48 <=? c) && (c <=? 57))%N
      then digits_value (10 * acc + Z.of_N (c - 48))%Z s'
      else None
  end.

(** [StringToNumber] on the empty string and on strings of decimal digits;
    this host reads every other string as [NaN]. *)
Definition StringToNumber_digits (s : jsstring) : number :=
  match digits_value 0 s with
  | Some z => number_of_Z z
  | None => NaN
  end.

(** The text of a value as [Array.prototype.join] and
    [Object.prototype.toString] produce it. *)
Fixpoint text_of (v : jsval) : jsstring :=
  match v with
  | VUndefined => lit "undefined"
  | VNull => lit "null"
  | VBool true => lit "true"
  | VBool false => lit "false"
  | VNum n => NumberToString_integral n
  | VStr s => s
  | VObj _ => lit "[object Object]"
  | VArr l =>
      (fix join (l : list jsval) : jsstring :=
         match l with
         | [] => []
         | x :: l' =>
             match x with
             | VUndefined | VNull => []
             | _ => text_of x
             end ++
             match l' with
             | [] => []
             | _ :: _ => lit "," ++ join l'
             end
         end) l
  end.

(** [JSON.stringify] on values whose strings need no escape. *)
Fixpoint stringify (v : jsval) : jsstring :=
  match v with
  | VUndefined | VNull => lit "null"
  | VBool true => lit "true"
  | VBool false => lit "false"
  | VNum n => NumberToString_integral n
  | VStr s => quoted s
  | VArr l =>
      lit "[" ++
      (fix items (l : list jsval) : jsstring :=
         match l with
         | [] => []
         | x :: l' =>
             stringify x ++
             match l' with
             | [] => []
             | _ :: _ => lit "," ++ items l'
             end
         end) l ++ lit "]"
  | VObj props =>
      lit "{" ++
      (fix members (props : list (jsstring * jsval)) : jsstring :=
         match props with
         | [] => []
         | (k, x) :: rest =>
             quoted k ++ lit ":" ++ stringify x ++
             match rest with
             | [] => []
             | _ :: _ => lit "," ++ members rest
             end
         end) props ++ lit "}"
  end.

(** The plans of the examples. *)

Definition example_query : jsstring :=
  lit "SELECT Pclass, COUNT(*) as cnt FROM titanic GROUP BY Pclass".

Definition plan_by_class : jsval :=
  VObj [(lit "answer", VStr (lit "Here is the number of passengers per class."));
        (lit "sql", VStr example_query);
        (lit "chart", VObj [(lit "type", VStr (lit "bar"));
                            (lit "title", VStr (lit "Passengers per class"))])].

Definition plan_hello : jsval :=
  VObj [(lit "answer", VStr (lit "Hello! Ask me about the passengers."))].

Definition plan_hello_chart : jsval :=
  VObj [(lit "answer", VStr (lit "Hello! Ask me about the passengers."));
        (lit "chart", VObj [(lit "type", VStr (lit "pie"));
                            (lit "title", VStr (lit "Nothing to plot"))])].

Definition second_class_query : jsstring :=
  lit "SELECT Pclass, COUNT(*) as cnt FROM titanic WHERE Pclass = 2 GROUP BY Pclass".

Definition plan_second_class : jsval :=
  VObj [(lit "answer", VStr (lit "Here are the passengers of the second class."));
        (lit "sql", VStr second_class_query);
        (lit "chart", VObj [(lit "type", VStr (lit "bar"));
                            (lit "title", VStr (lit "Second class"))])].

Definition plan_delete : jsval :=
  VObj [(lit "answer", VStr (lit "All passengers have been removed."));
        (lit "sql", VStr (lit "DELETE FROM titanic"));
        (lit "chart", VObj [(lit "type", VStr (lit "none"));
                            (lit "title", VStr (lit "Nothing"))])].

Definition documents : list jsval :=
  [VObj []; VNull; plan_by_class; plan_hello; plan_hello_chart;
   plan_second_class; plan_delete].

(** [JSON.parse] on the texts of [documents]; any other text is refused. *)
Definition JSON_parse_documents (s : jsstring) : exc jsval :=
  match find (fun d => str_eqb (stringify d) s) documents with
  | Some d => ret d
  | None => throw (ErrorObject (lit "Unexpected token in JSON"))
  end.

(** The wording of V8. *)
Definition fault_message_v8 (f : fault) : jsstring :=
  match f with
  | NotAFunction callee => lit callee ++ lit " is not a function"
  | NullishRead property =>
      lit "Cannot read properties of null (reading '" ++ property ++ lit "')"
  | NullishToObject => lit "Cannot convert undefined or null to object"
  | NotPrimitive => lit "Cannot convert object to primitive value"
  | ExpectedString _ => lit "Expected first argument to be a string"
  end.

Definition host : Engine :=
  {| toUpperCase := toUpperCase_ascii;
     NumberToString := NumberToString_integral;
     StringToNumber := StringToNumber_digits;
     ToPrimitive := fun _ v => ret (VStr (text_of v));
     JSON_parse := JSON_parse_documents;
     fault_message := fault_message_v8 |}.

(** A store with three passengers in class 1 and two in class 3, which
    answers the two queries of the examples and fails on every other one. *)
Definition store (q : jsstring) : jsstring + list Gateway.Row :=
  if str_eqb q example_query then
    inr [[(lit "Pclass", VNum (number_of_Z 1)); (lit "cnt", VNum (number_of_Z 3))];
         [(lit "Pclass", VNum (number_of_Z 3)); (lit "cnt", VNum (number_of_Z 2))]]
  else if str_eqb q second_class_query then inr []
  else inl (lit "near " ++ quoted q ++ lit ": syntax error").

(** The body of a request that carries [sql]. *)
Definition request (sql : jsval) : jsval := VObj [(lit "sql", sql)].

Definition noon : Chat.Clock := {| Chat.Date_now := 1700000000000; Chat.new_Date := 1700000000000 |}.

Definition idle (typed : jsstring) : Chat.State :=
  {| Chat.input := typed;
     Chat.messages := [Chat.greeting 0];
     Chat.isLoading := false |}.

(** A planner that answers with the text of [plan], and the gateway of
    [server.ts] over [store]. *)
Definition env_of (plan : jsval) : Chat.Env :=
  {| Chat.planner := fun _ => Chat.PlannerResponse (Some (stringify plan));
     Chat.fetch_query := @Deployment.fetch_gateway host store;
     Chat.at_submit := noon;
     Chat.at_reply := noon |}.

(** An environment whose [fetch] fails at the network level. *)
Definition env_offline (plan : jsval) : Chat.Env :=
  {| Chat.planner := fun _ => Chat.PlannerResponse (Some (stringify plan));
     Chat.fetch_query := fun _ => inl (ErrorObject (lit "Failed to fetch"));
     Chat.at_submit := noon;
     Chat.at_reply := noon |}.

(** The user has typed a question ... *)
Definition typed : Chat.System :=
  {| Chat.app := Chat.setInput (lit "How many passengers per class?")
                   (Chat.app (Chat.initial 0));
     Chat.pending := Chat.pending (Chat.initial 0) |}.

(** ... and submitted it. *)
Definition waiting : Chat.System :=
  {| Chat.app := fst (Chat.handleSubmit noon (Chat.app typed));
     Chat.pending :=
       Chat.pending typed ++ Chat.to_list (snd (Chat.handleSubmit noon (Chat.app typed))) |}.

(** A table keyed by its first column: [insert.run] refuses a key that is
    already there, as the [PRIMARY KEY] of line 34 does. *)
Definition keyed_insert (t : list (list jsval)) (args : list jsval)
  : jsstring + list (list jsval) :=
  if existsb (fun r => str_eqb (text_of (hd VNull r)) (text_of (hd VNull args))) t
  then inl (lit "UNIQUE constraint failed: titanic.PassengerId")
  else inr (t ++ [args]).

(** A parsed CSV record with the three fields the examples look at. *)
Definition passenger (passengerId : jsval) (name : string) : jsval :=
  VObj [(lit "PassengerId", passengerId); (lit "Survived", VNum (number_of_Z 1));
        (lit "Name", VStr (lit name))].

(** A clock that has moved on by the time the reply arrives. *)
Definition later : Chat.Clock :=
  {| Chat.Date_now := 1700000000850; Chat.new_Date := 1700000000850 |}.

(** An environment with the given planner outcome; the gateway is the one
    of [server.ts] over [store]. *)
Definition env_with (o : Chat.PlannerOutcome) : Chat.Env :=
  {| Chat.planner := fun _ => o;
     Chat.fetch_query := @Deployment.fetch_gateway host store;
     Chat.at_submit := noon;
     Chat.at_reply := later |}.

End Sample.

(* ===================================================================== *)
(** * Properties of the fragment                                          *)
(* ===================================================================== *)

Module JSFacts.
Import JS.

Lemma str_eqb_eq (a b : jsstring) : str_eqb a b = true <-> a = b.
Proof.
  revert b; induction a as [|x a IH]; intros [|y b]; simpl; split;
    try congruence; try reflexivity.
  - intros H. apply andb_true_iff in H as [Hx Hr].
    apply N.eqb_eq in Hx. apply IH in Hr. congruence.
  - intros H. injection H as -> ->. rewrite N.eqb_refl. simpl.
    apply IH. reflexivity.
Qed.

Lemma str_eqb_refl (a : jsstring) : str_eqb a a = true.
Proof. apply str_eqb_eq. reflexivity. Qed.

Lemma str_eqb_neq (a b : jsstring) : a <> b -> str_eqb a b = false.
Proof.
  intros H. destruct (str_eqb a b) eqn:E; [|reflexivity].
  apply str_eqb_eq in E. contradiction.
Qed.

(** The truthy strings are the non-empty ones. *)
Lemma truthy_nonempty_string (s : jsstring) :
  truthy (VStr s) = true <-> s <> [].
Proof.
  destruct s; simpl; split; intros H; congruence.
Qed.

End JSFacts.

(* ===================================================================== *)
(** * Properties of the query gateway                                     *)
(* ===================================================================== *)

Module GatewayProps.
Import JS Gateway.

Section Handler.
Context {engine : Engine}.
Variable db : jsstring -> jsstring + list Row.

(** Once the body has been destructured, the handler is the [try]/[catch]
    run after the log line. *)
Lemma serve_destructured (req_body sql : jsval) :
  get req_body (lit "sql") = inr sql ->
  serve db req_body =
  try_catch (try_block db sql) catch_block [ConsoleLog sql].
Proof.
  intros H. unfold serve, post_api_query, andThen, lift, emit.
  rewrite H. reflexivity.
Qed.

(** A falsy [sql] is answered 400 and the store is left alone. *)
Lemma falsy_sql (req_body sql : jsval) :
  get req_body (lit "sql") = inr sql ->
  truthy sql = false ->
  serve db req_body =
  (inr {| status := 400;
          body := json_error (VStr (lit "No SQL query provided")) |},
   [ConsoleLog sql]).
Proof.
  intros H F. rewrite (serve_destructured _ _ H).
  unfold try_catch, try_block. rewrite F. reflexivity.
Qed.

(** A non-empty string reaches the prefix test. *)
Lemma string_sql (req_body : jsval) (s : jsstring) :
  get req_body (lit "sql") = inr (VStr s) ->
  s <> [] ->
  serve db req_body =
  try_catch
    (if negb (startsWith (toUpperCase (trim s)) (lit "SELECT"))
     then pure {| status := 403;
                  body := json_error (VStr (lit "Only SELECT queries are allowed")) |}
     else andThen (prepare_all db (VStr s))
            (fun rows => pure {| status := 200; body := json_data rows |}))
    catch_block [ConsoleLog (VStr s)].
Proof.
  intros H Hs. rewrite (serve_destructured _ _ H).
  apply JSFacts.truthy_nonempty_string in Hs.
  unfold try_catch, try_block. rewrite Hs. reflexivity.
Qed.

(** C1: a request whose [sql] is a non-empty string that, trimmed and
    upper-cased, does not start with [SELECT] is answered 403 with the
    policy message, and the store is not queried. *)
Theorem non_select_is_forbidden (req_body : jsval) (s : jsstring) :
  get req_body (lit "sql") = inr (VStr s) ->
  s <> [] ->
  startsWith (toUpperCase (trim s)) (lit "SELECT") = false ->
  fst (serve db req_body) =
    inr {| status := 403;
           body := json_error (VStr (lit "Only SELECT queries are allowed")) |}
  /\ store_queries (snd (serve db req_body)) = 0.
Proof.
  intros H Hs Hp. rewrite (string_sql _ _ H Hs).
  unfold try_catch. rewrite Hp. simpl. split; reflexivity.
Qed.

(** C7: a request whose body has no [sql] field, or an empty one, is
    answered 400 and the store is not queried. *)
Theorem missing_sql_is_bad_request (req_body sql : jsval) :
  get req_body (lit "sql") = inr sql ->
  sql = VUndefined \/ sql = VStr [] ->
  fst (serve db req_body) =
    inr {| status := 400;
           body := json_error (VStr (lit "No SQL query provided")) |}
  /\ store_queries (snd (serve db req_body)) = 0.
Proof.
  intros H E.
  assert (F : truthy sql = false) by (destruct E; subst; reflexivity).
  rewrite (falsy_sql _ _ H F). split; reflexivity.
Qed.

(** C6: a request whose [sql] passes both checks queries the store once,
    with the string as received; the answer is 200 with every row the
    store returned, each as its column-to-value object, or 500 with the
    message of the store's error. *)
Theorem valid_sql_is_executed (req_body : jsval) (s : jsstring) :
  get req_body (lit "sql") = inr (VStr s) ->
  s <> [] ->
  startsWith (toUpperCase (trim s)) (lit "SELECT") = true ->
  match db s with
  | inr rows =>
      serve db req_body =
      (inr {| status := 200;
              body := VObj [(lit "data", VArr (List.map VObj rows))] |},
       [ConsoleLog (VStr s); StoreQuery s])
  | inl message =>
      serve db req_body =
      (inr {| status := 500; body := VObj [(lit "error", VStr message)] |},
       [ConsoleLog (VStr s); StoreQuery s; ConsoleError (ErrorObject message)])
  end.
Proof.
  intros H Hs Hp. rewrite (string_sql _ _ H Hs).
  unfold try_catch, andThen, prepare_all, emit. rewrite Hp. simpl.
  destruct (db s) as [message | rows]; reflexivity.
Qed.

(** C10: a request whose [sql] is truthy but not a string is answered 500
    with the message of the [TypeError] that [sql.trim()] raises; the
    store is not queried. *)
Theorem non_string_sql_is_server_error (req_body sql : jsval) :
  get req_body (lit "sql") = inr sql ->
  truthy sql = true ->
  (forall s, sql <> VStr s) ->
  fst (serve db req_body) =
    inr {| status := 500;
           body := json_error (VStr (fault_message (NotAFunction "sql.trim"))) |}
  /\ store_queries (snd (serve db req_body)) = 0.
Proof.
  intros H T N. rewrite (serve_destructured _ _ H).
  unfold try_catch, try_block. rewrite T. simpl.
  destruct sql; try (split; reflexivity).
  exfalso. eapply N. reflexivity.
Qed.

End Handler.

(** ** The handler on concrete requests *)

(** The example of the specification: [DELETE FROM titanic] is refused
    with 403 whatever the store holds. *)
Example delete_is_refused_by_every_store (db : jsstring -> jsstring + list Row) :
  serve (engine := Sample.host) db (Sample.request (VStr (lit "DELETE FROM titanic"))) =
  (inr {| status := 403;
          body := json_error (VStr (lit "Only SELECT queries are allowed")) |},
   [ConsoleLog (VStr (lit "DELETE FROM titanic"))]).
Proof. reflexivity. Qed.

(** The prefix test is textual: a string that only starts with [select]
    reaches the store. *)
Example lower_case_select_reaches_the_store :
  snd (serve (engine := Sample.host) Sample.store
         (Sample.request (VStr (lit "  select 1; DROP TABLE titanic")))) =
  [ConsoleLog (VStr (lit "  select 1; DROP TABLE titanic"));
   StoreQuery (lit "  select 1; DROP TABLE titanic");
   ConsoleError (ErrorObject (lit "near " ++ Sample.quoted (lit "  select 1; DROP TABLE titanic")
                              ++ lit ": syntax error"))].
Proof. reflexivity. Qed.

(** The message of a failing store reaches the client unchanged. *)
Example store_error_is_passed_through :
  fst (serve (engine := Sample.host) Sample.store
         (Sample.request (VStr (lit "SELECT Deck FROM titanic")))) =
  inr {| status := 500;
         body := json_error
                   (VStr (lit "near " ++ Sample.quoted (lit "SELECT Deck FROM titanic")
                          ++ lit ": syntax error")) |}.
Proof. reflexivity. Qed.

Lemma non_select_is_forbidden_witness :
  fst (serve (engine := Sample.host) Sample.store
         (Sample.request (VStr (lit "DELETE FROM titanic")))) =
    inr {| status := 403;
           body := json_error (VStr (lit "Only SELECT queries are allowed")) |}
  /\ store_queries (snd (serve (engine := Sample.host) Sample.store
         (Sample.request (VStr (lit "DELETE FROM titanic"))))) = 0.
Proof.
  apply (@non_select_is_forbidden Sample.host Sample.store
           (Sample.request (VStr (lit "DELETE FROM titanic")))
           (lit "DELETE FROM titanic")).
  - reflexivity.
  - discriminate.
  - reflexivity.
Defined.

Lemma missing_sql_is_bad_request_witness :
  fst (serve (engine := Sample.host) Sample.store (VObj [])) =
    inr {| status := 400;
           body := json_error (VStr (lit "No SQL query provided")) |}
  /\ store_queries (snd (serve (engine := Sample.host) Sample.store (VObj []))) = 0.
Proof.
  apply (@missing_sql_is_bad_request Sample.host Sample.store (VObj []) VUndefined).
  - reflexivity.
  - left. reflexivity.
Defined.

Lemma valid_sql_is_executed_witness :
  serve (engine := Sample.host) Sample.store (Sample.request (VStr Sample.example_query)) =
  (inr {| status := 200;
          body := VObj [(lit "data",
                    VArr [VObj [(lit "Pclass", VNum (number_of_Z 1));
                                (lit "cnt", VNum (number_of_Z 3))];
                          VObj [(lit "Pclass", VNum (number_of_Z 3));
                                (lit "cnt", VNum (number_of_Z 2))]])] |},
   [ConsoleLog (VStr Sample.example_query); StoreQuery Sample.example_query]).
Proof.
  apply (@valid_sql_is_executed Sample.host Sample.store
           (Sample.request (VStr Sample.example_query)) Sample.example_query).
  - reflexivity.
  - discriminate.
  - reflexivity.
Defined.

Lemma non_string_sql_is_server_error_witness :
  fst (serve (engine := Sample.host) Sample.store
         (Sample.request (VNum (number_of_Z 42)))) =
    inr {| status := 500;
           body := json_error (VStr (lit "sql.trim is not a function")) |}
  /\ store_queries (snd (serve (engine := Sample.host) Sample.store
         (Sample.request (VNum (number_of_Z 42))))) = 0.
Proof.
  apply (@non_string_sql_is_server_error Sample.host Sample.store
           (Sample.request (VNum (number_of_Z 42))) (VNum (number_of_Z 42))).
  - reflexivity.
  - reflexivity.
  - discriminate.
Defined.

End GatewayProps.

(* ===================================================================== *)
(** * Properties of the chat orchestrator                                 *)
(* ===================================================================== *)

Module ChatProps.
Import JS Chat.

Section Orchestrator.
Context {engine : Engine}.

(** ** Reads and the assistant message *)

Lemma get_inr (v x : jsval) (k : jsstring) :
  get v k = inr x -> nullish v = false /\ x = own v k.
Proof.
  unfold get. destruct (nullish v); [discriminate|].
  intros H. injection H as <-. split; reflexivity.
Qed.

Lemma get_present (v : jsval) (k : jsstring) :
  nullish v = false -> get v k = inr (own v k).
Proof. intros H. unfold get. rewrite H. reflexivity. Qed.

Lemma assistantMessage_role clk result chartData m :
  assistantMessage clk result chartData = inr m -> role m = assistant.
Proof.
  unfold assistantMessage, bind, ret.
  destruct (get result (lit "answer")); [discriminate|].
  destruct (get result (lit "chart")); [discriminate|].
  destruct (get result (lit "sql")); [discriminate|].
  intros H. injection H as <-. reflexivity.
Qed.

(** On a plan that is an object (or any value other than [null]), the
    assistant message is built without a throw. *)
Lemma assistantMessage_defined clk result chartData :
  nullish result = false ->
  exists m,
    assistantMessage clk result chartData = inr m
    /\ role m = assistant
    /\ content m = own result (lit "answer")
    /\ sql m = own result (lit "sql")
    /\ (forall c, chart m = Some c -> data c = chartData).
Proof.
  intros H. unfold assistantMessage, bind, ret.
  rewrite !(get_present _ _ H).
  eexists. split; [reflexivity|]. simpl. repeat split.
  intros c. destruct (strict_neq_str _ _); [|discriminate].
  intros E. injection E as <-. reflexivity.
Qed.

(** A chart without data points is not drawn. *)
Lemma renderChart_no_data (c : Chart) :
  data c = [] -> renderChart (Some c) = None.
Proof.
  intros H. unfold renderChart. rewrite H. simpl.
  rewrite orb_true_r. reflexivity.
Qed.

Lemma no_points_no_figure (m : Message) :
  (forall c, chart m = Some c -> data c = []) ->
  figure (render_message m) = None.
Proof.
  intros H. unfold render_message. simpl.
  destruct (chart m) as [c|] eqn:E; [|reflexivity].
  apply renderChart_no_data. apply H. reflexivity.
Qed.

(** ** The stretches of the [try] block *)

Lemma after_plan_role clk o m :
  after_plan clk o = inr (Append m) -> role m = assistant.
Proof.
  destruct o as [e|text]; simpl; [discriminate|]. unfold bind, ret.
  destruct (JSON_parse _) as [|result]; [discriminate|].
  destruct (get result (lit "sql")) as [|q]; [discriminate|].
  destruct (truthy q); [discriminate|].
  destruct (assistantMessage clk result []) as [|m'] eqn:E; [discriminate|].
  intros H. injection H as <-. eapply assistantMessage_role, E.
Qed.

Lemma after_fetch_role clk result o m :
  after_fetch clk result o = inr (Append m) -> role m = assistant.
Proof.
  unfold after_fetch, bind, ret. destruct o as [|resp]; [discriminate|].
  destruct (ok resp); [discriminate|].
  destruct (assistantMessage clk result []) as [|m'] eqn:E; [discriminate|].
  intros H. injection H as <-. eapply assistantMessage_role, E.
Qed.

Lemma after_body_role clk result resp m :
  after_body clk result resp = inr (Append m) -> role m = assistant.
Proof.
  unfold after_body, bind, ret.
  destruct (json resp) as [|reply]; [discriminate|].
  destruct (get reply (lit "data")) as [|rows]; [discriminate|].
  destruct (chartData_of rows) as [|cd]; [discriminate|].
  destruct (assistantMessage clk result cd) as [|m'] eqn:E; [discriminate|].
  intros H. injection H as <-. eapply assistantMessage_role, E.
Qed.

Lemma after_body_no_await clk result resp a :
  after_body clk result resp <> inr (Await a).
Proof.
  unfold after_body, bind, ret.
  destruct (json resp) as [|reply]; [discriminate|].
  destruct (get reply (lit "data")) as [|rows]; [discriminate|].
  destruct (chartData_of rows) as [|cd]; [discriminate|].
  destruct (assistantMessage clk result cd); discriminate.
Qed.

Lemma after_fetch_await clk result o a :
  after_fetch clk result o = inr (Await a) ->
  exists resp, a = AwaitingBody result resp.
Proof.
  unfold after_fetch, bind, ret. destruct o as [|resp]; [discriminate|].
  destruct (ok resp).
  - intros H. injection H as <-. eexists. reflexivity.
  - destruct (assistantMessage clk result []); discriminate.
Qed.

Lemma after_plan_await clk o a :
  after_plan clk o = inr (Await a) ->
  exists result q, a = AwaitingQueryResult result q.
Proof.
  destruct o as [e|text]; simpl; [discriminate|]. unfold bind, ret.
  destruct (JSON_parse _) as [|result]; [discriminate|].
  destruct (get result (lit "sql")) as [|q]; [discriminate|].
  destruct (truthy q).
  - intros H. injection H as <-. do 2 eexists. reflexivity.
  - destruct (assistantMessage clk result []); discriminate.
Qed.

(** What [settle] does: it hands the next suspension on and leaves the state
    alone, or it appends one message and clears the loading flag. *)
Lemma settle_cases clk (r : exc Next) (st : State) :
  (exists a, r = inr (Await a) /\ settle clk r st = (st, Some a))
  \/ (exists m,
        (r = inr (Append m) \/ exists e, r = inl e /\ m = errorMessage clk e)
        /\ settle clk r st = (setIsLoading false (setMessages_append m st), None)).
Proof.
  destruct r as [e|[a|m]]; simpl.
  - right. eexists. split; [right; eexists; split; reflexivity | reflexivity].
  - left. eexists. split; reflexivity.
  - right. eexists. split; [left; reflexivity | reflexivity].
Qed.

(** ** A turn runs to its end *)

Lemma resume_rank env a a' :
  resume env a = inr (Await a') -> rank a' < rank a.
Proof.
  destruct a as [inp|result q|result resp]; simpl; intros H.
  - apply after_plan_await in H as (r & q & ->). simpl. lia.
  - apply after_fetch_await in H as (resp & ->). simpl. lia.
  - exfalso. eapply after_body_no_await, H.
Qed.

Lemma resume_role env a m :
  resume env a = inr (Append m) -> role m = assistant.
Proof.
  destruct a; simpl; intros H.
  - eapply after_plan_role, H.
  - eapply after_fetch_role, H.
  - eapply after_body_role, H.
Qed.

(** With fuel for every suspension ahead, [run] ends the turn: one assistant
    message is appended, the loading flag is cleared, nothing else
    changes. *)
Lemma run_completes fuel env st a :
  rank a <= fuel ->
  exists m,
    role m = assistant
    /\ final (run fuel env st a) = setIsLoading false (setMessages_append m st)
    /\ unfinished (run fuel env st a) = None.
Proof.
  revert st a. induction fuel as [|fuel IH]; intros st a Hr.
  - destruct a; simpl in Hr; lia.
  - simpl.
    destruct (settle_cases (at_reply env) (resume env a) st)
      as [(a' & Er & ->) | (m & Hm & ->)].
    + apply resume_rank in Er.
      destruct (IH st a') as (m & Hrole & Hf & Hu); [lia|].
      exists m. simpl. repeat split; assumption.
    + exists m. simpl. repeat split.
      destruct Hm as [Er | (e & _ & ->)]; [eapply resume_role, Er | reflexivity].
Qed.

(** An accepted submission appends the user message, empties the input
    field, sets the loading flag and waits for the planner. *)
Lemma handleSubmit_accepted clk st :
  accepted st = true ->
  handleSubmit clk st = (submitted clk st, Some (AwaitingPlan (input st))).
Proof.
  unfold accepted, handleSubmit. intros H.
  apply andb_true_iff in H as [Ht Hl]. rewrite Ht.
  apply negb_true_iff in Hl. rewrite Hl. reflexivity.
Qed.

Lemma handleSubmit_refused clk st :
  accepted st = false -> handleSubmit clk st = (st, None).
Proof.
  unfold accepted, handleSubmit. intros H.
  destruct (truthy _); simpl in *; [|reflexivity].
  destruct (isLoading st); [reflexivity | discriminate].
Qed.

Lemma run_turn_accepted env st :
  accepted st = true ->
  run_turn env st =
  run 3 env (submitted (at_submit env) st) (AwaitingPlan (input st)).
Proof.
  intros H. unfold run_turn. rewrite (handleSubmit_accepted _ _ H). reflexivity.
Qed.

(** C2: a submitted turn appends the user message and then exactly one
    assistant message, whatever the planner and the gateway do; the turn
    is then over. *)
Theorem one_assistant_message_per_turn (env : Env) (st : State) :
  accepted st = true ->
  exists m,
    role m = assistant
    /\ messages (final (run_turn env st)) =
       messages st ++ [userMessage (at_submit env) (input st); m]
    /\ assistant_count (messages (final (run_turn env st))) =
       assistant_count (messages st) + 1
    /\ unfinished (run_turn env st) = None.
Proof.
  intros H. rewrite (run_turn_accepted _ _ H).
  destruct (run_completes 3 env (submitted (at_submit env) st)
              (AwaitingPlan (input st))) as (m & Hrole & -> & ->);
    [simpl; lia|].
  exists m. simpl. rewrite <- app_assoc. simpl.
  repeat split; try assumption.
  unfold assistant_count. rewrite filter_app, length_app.
  assert (E : filter is_assistant [userMessage (at_submit env) (input st); m] = [m]).
  { simpl. unfold is_assistant. simpl. rewrite Hrole. reflexivity. }
  rewrite E. reflexivity.
Qed.

(** ** Chart data points *)

Lemma String_scalar (v : jsval) :
  scalar v = true -> exists s, String_ v = inr s.
Proof.
  destruct v as [| |[|]| | | |]; simpl; try discriminate; intros _;
    eexists; reflexivity.
Qed.

Lemma Number_scalar (v : jsval) :
  scalar v = true -> exists n, Number_ v = inr n.
Proof.
  destruct v as [| |[|]| | | |]; simpl; try discriminate; intros _;
    eexists; reflexivity.
Qed.

Lemma point_of_row c1 c2 others (row : list (jsstring * jsval)) :
  c1 <> c2 ->
  List.map fst row = c1 :: c2 :: others ->
  Forall (fun cell => scalar (snd cell) = true) row ->
  exists point,
    point_of (c1 :: c2 :: others) (VObj row) = inr point
    /\ projects c1 c2 row point.
Proof.
  intros Hne Hcols Hsc.
  destruct row as [|[k1 v1] [|[k2 v2] rest]]; try discriminate.
  simpl in Hcols. injection Hcols as -> -> _.
  inversion Hsc as [|? ? S1 Hsc']; subst.
  inversion Hsc' as [|? ? S2 _]; subst. simpl in S1, S2.
  destruct (String_scalar _ S1) as (s & Es).
  destruct (Number_scalar _ S2) as (n & En).
  exists {| name := s; value := n |}. split.
  - unfold point_of, get, bind, ret. simpl.
    rewrite JSFacts.str_eqb_refl, Es.
    rewrite (JSFacts.str_eqb_neq c2 c1) by congruence.
    rewrite JSFacts.str_eqb_refl, En. reflexivity.
  - exists v1, v2. simpl. repeat split; assumption.
Qed.

Lemma points_of_rows c1 c2 others (rows : list (list (jsstring * jsval))) :
  c1 <> c2 ->
  Forall (fun row => List.map fst row = c1 :: c2 :: others) rows ->
  Forall (fun row => Forall (fun cell => scalar (snd cell) = true) row) rows ->
  exists chartData,
    mapM (point_of (c1 :: c2 :: others)) (List.map VObj rows) = inr chartData
    /\ Forall2 (projects c1 c2) rows chartData.
Proof.
  intros Hne Hcols Hsc. induction rows as [|row rows IH].
  - exists []. split; [reflexivity | constructor].
  - inversion Hcols as [|? ? Hc Hcs]; subst.
    inversion Hsc as [|? ? Hs Hss]; subst.
    destruct (point_of_row _ _ _ _ Hne Hc Hs) as (p & Ep & Hp).
    destruct (IH Hcs Hss) as (ps & Eps & Hps).
    exists (p :: ps). split.
    + simpl. rewrite Ep. simpl. rewrite Eps. reflexivity.
    + constructor; assumption.
Qed.

Lemma chartData_of_rows c1 c2 others (rows : list (list (jsstring * jsval))) :
  Forall (fun row => List.map fst row = c1 :: c2 :: others) rows ->
  chartData_of (VArr (List.map VObj rows)) =
  mapM (point_of (c1 :: c2 :: others)) (List.map VObj rows).
Proof.
  intros Hcols. destruct rows as [|row rows]; [reflexivity|].
  inversion Hcols as [|? ? Hc _]; subst.
  unfold chartData_of, length_positive, bind, ret. simpl.
  rewrite Hc. reflexivity.
Qed.

(** C3: a reply whose rows all have the columns [c1], [c2], ... (at least
    two, in the order in which [Object.keys] lists them, the first two
    distinct) and hold scalars yields one data point per row, in order; the
    point's name is [String] of the row's first cell and its value is
    [Number] of the second; these are the points handed to the assistant
    message. *)
Theorem one_point_per_row (c1 c2 : jsstring) (others : list jsstring)
  (rows : list (list (jsstring * jsval))) :
  c1 <> c2 ->
  Forall (fun row => List.map fst row = c1 :: c2 :: others) rows ->
  Forall (fun row => Forall (fun cell => scalar (snd cell) = true) row) rows ->
  exists chartData,
    chartData_of (VArr (List.map VObj rows)) = inr chartData
    /\ List.length chartData = List.length rows
    /\ Forall2 (projects c1 c2) rows chartData
    /\ forall clk result queryResponse reply,
         json queryResponse = inr reply ->
         get reply (lit "data") = inr (VArr (List.map VObj rows)) ->
         after_body clk result queryResponse =
         bind (assistantMessage clk result chartData) (fun m => ret (Append m)).
Proof.
  intros Hne Hcols Hsc.
  destruct (points_of_rows _ _ _ _ Hne Hcols Hsc) as (cd & Ecd & Hcd).
  exists cd. rewrite (chartData_of_rows _ _ _ _ Hcols). repeat split.
  - exact Ecd.
  - symmetry. eapply Forall2_length, Hcd.
  - exact Hcd.
  - intros clk result resp reply Hj Hd. unfold after_body.
    rewrite Hj. cbn [bind]. rewrite Hd. cbn [bind].
    rewrite (chartData_of_rows _ _ _ _ Hcols), Ecd. reflexivity.
Qed.

(** ** Turns that reach, or skip, the gateway *)

(** The plan has a query: the turn goes on to the gateway. *)
Lemma run_turn_query env st text result q :
  accepted st = true ->
  planner env (input st) = PlannerResponse text ->
  JSON_parse (text_or_empty_object text) = inr result ->
  get result (lit "sql") = inr q ->
  truthy q = true ->
  run_turn env st =
  {| final := final (run 2 env (submitted (at_submit env) st) (AwaitingQueryResult result q));
     calls := CallPlanner (input st)
              :: calls (run 2 env (submitted (at_submit env) st) (AwaitingQueryResult result q));
     unfinished :=
       unfinished (run 2 env (submitted (at_submit env) st) (AwaitingQueryResult result q)) |}.
Proof.
  intros Ha Hp Hj Hq Ht. rewrite (run_turn_accepted _ _ Ha).
  cbn [run resume]. rewrite Hp. unfold after_plan.
  rewrite Hj. cbn [bind]. rewrite Hq. cbn [bind]. rewrite Ht.
  reflexivity.
Qed.

(** The plan has no query: the turn ends with the planner's reply. *)
Lemma run_turn_no_query env st text result q m :
  accepted st = true ->
  planner env (input st) = PlannerResponse text ->
  JSON_parse (text_or_empty_object text) = inr result ->
  get result (lit "sql") = inr q ->
  truthy q = false ->
  assistantMessage (at_reply env) result [] = inr m ->
  run_turn env st =
  {| final := setIsLoading false (setMessages_append m (submitted (at_submit env) st));
     calls := [CallPlanner (input st)];
     unfinished := None |}.
Proof.
  intros Ha Hp Hj Hq Ht Hm. rewrite (run_turn_accepted _ _ Ha).
  cbn [run resume]. rewrite Hp. unfold after_plan.
  rewrite Hj. cbn [bind]. rewrite Hq. cbn [bind]. rewrite Ht, Hm.
  reflexivity.
Qed.

Lemma messages_after_turn env st m :
  messages (setIsLoading false (setMessages_append m (submitted (at_submit env) st))) =
  messages st ++ [userMessage (at_submit env) (input st); m].
Proof. simpl. rewrite <- app_assoc. reflexivity. Qed.

(** C5: when the parsed plan has no query string, the gateway is not
    called; the assistant message is the plan's answer, and it shows
    neither a chart nor the SQL disclosure: its [sql] is the plan's absent or
    empty one, and its [chart], if any, has no data points. *)
Theorem plan_without_query_skips_gateway (env : Env) (st : State)
  (text : option jsstring) (result q : jsval) :
  accepted st = true ->
  planner env (input st) = PlannerResponse text ->
  JSON_parse (text_or_empty_object text) = inr result ->
  get result (lit "sql") = inr q ->
  truthy q = false ->
  calls (run_turn env st) = [CallPlanner (input st)]
  /\ exists m,
       messages (final (run_turn env st)) =
         messages st ++ [userMessage (at_submit env) (input st); m]
       /\ role m = assistant
       /\ content m = own result (lit "answer")
       /\ figure (render_message m) = None
       /\ disclosure (render_message m) = None
       /\ sql m = q
       /\ (forall c, chart m = Some c -> data c = []).
Proof.
  intros Ha Hp Hj Hq Ht.
  destruct (get_inr _ _ _ Hq) as [Hn ->].
  destruct (assistantMessage_defined (at_reply env) result [] Hn)
    as (m & Em & Hrole & Hcontent & Hsql & Hdata).
  rewrite (run_turn_no_query _ _ _ _ _ _ Ha Hp Hj Hq Ht Em).
  split; [reflexivity|]. exists m. cbn [final].
  rewrite messages_after_turn. repeat split; try assumption.
  - apply no_points_no_figure, Hdata.
  - unfold render_message. cbn [disclosure]. rewrite Hsql, Ht. reflexivity.
Qed.

(** C8: when the gateway answers a turn's query with zero rows, the
    assistant message is the plan's answer and shows no chart, whatever
    chart type the plan asked for. *)
Theorem zero_rows_no_chart (env : Env) (st : State)
  (text : option jsstring) (result q : jsval)
  (queryResponse : QueryResponse) (reply : jsval) :
  accepted st = true ->
  planner env (input st) = PlannerResponse text ->
  JSON_parse (text_or_empty_object text) = inr result ->
  get result (lit "sql") = inr q ->
  truthy q = true ->
  fetch_query env q = inr queryResponse ->
  ok queryResponse = true ->
  json queryResponse = inr reply ->
  get reply (lit "data") = inr (VArr []) ->
  exists m,
    messages (final (run_turn env st)) =
      messages st ++ [userMessage (at_submit env) (input st); m]
    /\ role m = assistant
    /\ content m = own result (lit "answer")
    /\ figure (render_message m) = None.
Proof.
  intros Ha Hp Hj Hq Ht Hf Hok Hb Hd.
  destruct (get_inr _ _ _ Hq) as [Hn _].
  destruct (assistantMessage_defined (at_reply env) result [] Hn)
    as (m & Em & Hrole & Hcontent & _ & Hdata).
  rewrite (run_turn_query _ _ _ _ _ Ha Hp Hj Hq Ht).
  cbn [final run resume]. rewrite Hf. unfold after_fetch. cbn [bind].
  rewrite Hok. cbn [ret settle resume]. unfold after_body.
  rewrite Hb. cbn [bind]. rewrite Hd. cbn [bind].
  change (chartData_of (VArr [])) with (@inr thrown (list ChartData) []).
  cbn [bind]. rewrite Em. cbn [bind ret settle final].
  exists m. rewrite messages_after_turn. repeat split; try assumption.
  apply no_points_no_figure, Hdata.
Qed.

(** C4, as the code has it: when the gateway call throws, the turn ends in
    the error path, with the error message in place of the plan's answer;
    when the gateway returns a reply that is not OK, the turn ends with the
    plan's answer and no data points.  The loading flag is cleared in both
    cases. *)
Theorem gateway_failure_paths (env : Env) (st : State)
  (text : option jsstring) (result q : jsval) :
  accepted st = true ->
  planner env (input st) = PlannerResponse text ->
  JSON_parse (text_or_empty_object text) = inr result ->
  get result (lit "sql") = inr q ->
  truthy q = true ->
  (forall e,
     fetch_query env q = inl e ->
     messages (final (run_turn env st)) =
       messages st ++ [userMessage (at_submit env) (input st);
                       errorMessage (at_reply env) e]
     /\ isLoading (final (run_turn env st)) = false)
  /\ (forall queryResponse,
        fetch_query env q = inr queryResponse ->
        ok queryResponse = false ->
        exists m,
          messages (final (run_turn env st)) =
            messages st ++ [userMessage (at_submit env) (input st); m]
          /\ role m = assistant
          /\ content m = own result (lit "answer")
          /\ (forall c, chart m = Some c -> data c = [])
          /\ isLoading (final (run_turn env st)) = false).
Proof.
  intros Ha Hp Hj Hq Ht.
  rewrite (run_turn_query _ _ _ _ _ Ha Hp Hj Hq Ht). cbn [final run resume].
  split.
  - intros e Hf. rewrite Hf. cbn [after_fetch bind settle final].
    rewrite messages_after_turn. split; reflexivity.
  - intros resp Hf Hok. rewrite Hf. unfold after_fetch. cbn [bind].
    rewrite Hok.
    destruct (get_inr _ _ _ Hq) as [Hn _].
    destruct (assistantMessage_defined (at_reply env) result [] Hn)
      as (m & Em & Hrole & Hcontent & _ & Hdata).
    rewrite Em. cbn [bind ret settle final].
    exists m. rewrite messages_after_turn. repeat split; assumption.
Qed.

(** ** One turn at a time *)

(** [run] follows the transitions of the component: from a reachable state
    in which one invocation is suspended it leads to a reachable state. *)
Lemma run_stays_reachable fuel env st a :
  reachable {| app := st; pending := [a] |} ->
  reachable {| app := final (run fuel env st a);
               pending := to_list (unfinished (run fuel env st a)) |}.
Proof.
  revert st a. induction fuel as [|fuel IH]; intros st a H; [exact H|].
  assert (Hs : reachable (resumed [] [] (settle (at_reply env) (resume env a) st))).
  { eapply reach_step; [exact H|]. destruct a as [inp|result q|result resp].
    - apply (step_plan (at_reply env) (planner env inp) inp [] [] st).
    - apply (step_fetch (at_reply env) (fetch_query env q) result q [] [] st).
    - apply (step_body (at_reply env) result resp [] [] st). }
  simpl. unfold resumed in Hs.
  destruct (settle (at_reply env) (resume env a) st) as [st' [a'|]];
    simpl in Hs |- *.
  - apply IH. exact Hs.
  - exact Hs.
Qed.

Lemma run_turn_stays_reachable env st :
  reachable {| app := st; pending := [] |} ->
  reachable {| app := final (run_turn env st);
               pending := to_list (unfinished (run_turn env st)) |}.
Proof.
  intros H. unfold run_turn.
  pose proof (reach_step _ _ H (step_submit (at_submit env) _)) as Hs.
  simpl in Hs.
  destruct (handleSubmit (at_submit env) st) as [st' [a|]]; simpl in Hs.
  - apply run_stays_reachable. exact Hs.
  - exact Hs.
Qed.

Lemma handleSubmit_loading clk st :
  isLoading st = true -> handleSubmit clk st = (st, None).
Proof.
  intros H. unfold handleSubmit. rewrite H, orb_true_r. reflexivity.
Qed.

(** The loading flag is set exactly while one invocation of [handleSubmit]
    is suspended. *)
Lemma flag_tracks_pending (s : System) :
  reachable s ->
  (isLoading (app s) = false /\ pending s = [])
  \/ (isLoading (app s) = true /\ exists a, pending s = [a]).
Proof.
  assert (single : forall (pre post : list Awaiting) a a0,
             pre ++ a :: post = [a0] -> pre = [] /\ post = []).
  { intros [|x pre] post a a0 E; simpl in E.
    - injection E as _ ->. split; reflexivity.
    - injection E as _ E. destruct pre; discriminate. }
  assert (resumed_ok : forall clk r st pre post a a0,
             isLoading st = true -> pre ++ a :: post = [a0] ->
             let s' := resumed pre post (settle clk r st) in
             (isLoading (app s') = false /\ pending s' = [])
             \/ (isLoading (app s') = true /\ exists a', pending s' = [a'])).
  { intros clk r st pre post a a0 Hl E.
    destruct (single _ _ _ _ E) as [-> ->].
    destruct (settle_cases clk r st) as [(a' & _ & ->) | (m & _ & ->)].
    - right. split; [exact Hl | exists a'; reflexivity].
    - left. split; reflexivity. }
  induction 1 as [t0 | s s' _ IH Hstep].
  - left. split; reflexivity.
  - destruct Hstep as [v s | clk s | clk o inp pre post st
                       | clk o result q pre post st | clk result resp pre post st];
      cbn [app pending] in IH.
    + exact IH.
    + destruct IH as [[Hl Hp] | [Hl (a & Hp)]].
      * rewrite Hp. destruct (accepted (app s)) eqn:Ha.
        -- rewrite (handleSubmit_accepted clk _ Ha). right.
           split; [reflexivity | eexists; reflexivity].
        -- rewrite (handleSubmit_refused clk _ Ha). left.
           split; [exact Hl | reflexivity].
      * rewrite (handleSubmit_loading clk _ Hl), Hp. right.
        split; [exact Hl | exists a; reflexivity].
    + destruct IH as [[_ Hp] | [Hl (a & Hp)]];
        [destruct pre; discriminate | eapply resumed_ok; eassumption].
    + destruct IH as [[_ Hp] | [Hl (a & Hp)]];
        [destruct pre; discriminate | eapply resumed_ok; eassumption].
    + destruct IH as [[_ Hp] | [Hl (a & Hp)]];
        [destruct pre; discriminate | eapply resumed_ok; eassumption].
Qed.

(** C9: in every reachable state at most one turn is in flight, and one is
    exactly when the loading flag is set; while it is set a submission
    changes nothing; and when the turn in flight ends, by an answer or by
    an error, the flag is cleared and a non-blank input is accepted
    again. *)
Theorem one_turn_in_flight (s : System) :
  reachable s ->
  List.length (pending s) <= 1
  /\ (isLoading (app s) = true <-> pending s <> [])
  /\ (isLoading (app s) = true ->
      forall clk, handleSubmit clk (app s) = (app s, None))
  /\ (forall s',
        step s s' -> pending s <> [] -> pending s' = [] ->
        isLoading (app s') = false
        /\ forall clk,
             truthy (VStr (trim (input (app s')))) = true ->
             handleSubmit clk (app s') =
             (submitted clk (app s'), Some (AwaitingPlan (input (app s'))))).
Proof.
  intros Hr. pose proof (flag_tracks_pending s Hr) as Hinv.
  repeat split.
  - destruct Hinv as [[_ ->] | [_ (a & ->)]]; simpl; lia.
  - destruct Hinv as [[Hl _] | [_ (a & ->)]]; intros H; congruence.
  - destruct Hinv as [[Hl ->] | [Hl _]]; intros H; congruence.
  - intros Hl clk. apply handleSubmit_loading, Hl.
  - pose proof (flag_tracks_pending s' (reach_step s s' Hr H)) as Hinv'.
    destruct Hinv' as [[Hl _] | [_ (a & E)]]; congruence.
  - intros clk Ht.
    pose proof (flag_tracks_pending s' (reach_step s s' Hr H)) as Hinv'.
    destruct Hinv' as [[Hl _] | [_ (a & E)]]; [|congruence].
    apply handleSubmit_accepted. unfold accepted. rewrite Ht, Hl. reflexivity.
Qed.

End Orchestrator.

(** ** The orchestrator on concrete turns *)

Lemma one_assistant_message_per_turn_witness :
  exists m,
    role m = assistant
    /\ messages (final (run_turn (engine := Sample.host)
                          (Sample.env_of Sample.plan_by_class)
                          (Sample.idle (lit "How many passengers per class?")))) =
       [greeting 0;
        userMessage Sample.noon (lit "How many passengers per class?"); m]
    /\ assistant_count
         (messages (final (run_turn (engine := Sample.host)
                             (Sample.env_of Sample.plan_by_class)
                             (Sample.idle (lit "How many passengers per class?"))))) = 2
    /\ unfinished (run_turn (engine := Sample.host)
                     (Sample.env_of Sample.plan_by_class)
                     (Sample.idle (lit "How many passengers per class?"))) = None.
Proof.
  apply (@one_assistant_message_per_turn Sample.host
           (Sample.env_of Sample.plan_by_class)
           (Sample.idle (lit "How many passengers per class?"))).
  reflexivity.
Defined.

Lemma one_point_per_row_witness :
  exists chartData,
    chartData_of (engine := Sample.host)
      (VArr (List.map VObj
               [[(lit "Pclass", VNum (number_of_Z 1)); (lit "cnt", VNum (number_of_Z 3))];
                [(lit "Pclass", VNum (number_of_Z 3)); (lit "cnt", VNum (number_of_Z 2))]]))
    = inr chartData
    /\ List.length chartData = 2
    /\ Forall2 (projects (engine := Sample.host) (lit "Pclass") (lit "cnt"))
         [[(lit "Pclass", VNum (number_of_Z 1)); (lit "cnt", VNum (number_of_Z 3))];
          [(lit "Pclass", VNum (number_of_Z 3)); (lit "cnt", VNum (number_of_Z 2))]]
         chartData
    /\ forall clk result queryResponse reply,
         json queryResponse = inr reply ->
         get (engine := Sample.host) reply (lit "data") =
           inr (VArr (List.map VObj
               [[(lit "Pclass", VNum (number_of_Z 1)); (lit "cnt", VNum (number_of_Z 3))];
                [(lit "Pclass", VNum (number_of_Z 3)); (lit "cnt", VNum (number_of_Z 2))]])) ->
         after_body (engine := Sample.host) clk result queryResponse =
         bind (assistantMessage (engine := Sample.host) clk result chartData)
           (fun m => ret (Append m)).
Proof.
  apply (@one_point_per_row Sample.host (lit "Pclass") (lit "cnt") []).
  - discriminate.
  - repeat constructor.
  - repeat constructor.
Defined.

(** The example of the specification: the rows of the grouped count become
    the points [("1", 3)] and [("3", 2)]. *)
Example points_of_the_grouped_count :
  chartData_of (engine := Sample.host)
    (VArr (List.map VObj
             [[(lit "Pclass", VNum (number_of_Z 1)); (lit "cnt", VNum (number_of_Z 3))];
              [(lit "Pclass", VNum (number_of_Z 3)); (lit "cnt", VNum (number_of_Z 2))]]))
  = inr [{| name := lit "1"; value := number_of_Z 3 |};
         {| name := lit "3"; value := number_of_Z 2 |}].
Proof. reflexivity. Qed.

(** The example of the specification, end to end: the planner proposes the
    grouped count, the gateway of [server.ts] runs it on the store, and the
    assistant message shows the answer, the query and a bar chart of the two
    points. *)
Example turn_with_a_chart :
  List.map render_message
    (messages (final (run_turn (engine := Sample.host)
                        (Sample.env_of Sample.plan_by_class)
                        (Sample.idle (lit "How many passengers per class?")))))
  = [render_message (greeting 0);
     {| text := VStr (lit "How many passengers per class?");
        disclosure := None;
        figure := None |};
     {| text := VStr (lit "Here is the number of passengers per class.");
        disclosure := Some (VStr Sample.example_query);
        figure := Some {| kind := BarChart;
                          title := VStr (lit "Passengers per class");
                          points := [{| name := lit "1"; value := number_of_Z 3 |};
                                     {| name := lit "3"; value := number_of_Z 2 |}] |} |}].
Proof. reflexivity. Qed.

Lemma plan_without_query_skips_gateway_witness :
  calls (run_turn (engine := Sample.host) (Sample.env_of Sample.plan_hello_chart)
           (Sample.idle (lit "Hello"))) = [CallPlanner (lit "Hello")]
  /\ exists m,
       messages (final (run_turn (engine := Sample.host)
                          (Sample.env_of Sample.plan_hello_chart)
                          (Sample.idle (lit "Hello")))) =
         [greeting 0; userMessage Sample.noon (lit "Hello"); m]
       /\ role m = assistant
       /\ content m = VStr (lit "Hello! Ask me about the passengers.")
       /\ figure (render_message m) = None
       /\ disclosure (render_message m) = None
       /\ sql m = VUndefined
       /\ (forall c, chart m = Some c -> data c = []).
Proof.
  apply (@plan_without_query_skips_gateway Sample.host
           (Sample.env_of Sample.plan_hello_chart) (Sample.idle (lit "Hello"))
           (Some (Sample.stringify Sample.plan_hello_chart))
           Sample.plan_hello_chart VUndefined);
    reflexivity.
Defined.

Lemma zero_rows_no_chart_witness :
  exists m,
    messages (final (run_turn (engine := Sample.host)
                       (Sample.env_of Sample.plan_second_class)
                       (Sample.idle (lit "Second class?")))) =
      [greeting 0; userMessage Sample.noon (lit "Second class?"); m]
    /\ role m = assistant
    /\ content m = VStr (lit "Here are the passengers of the second class.")
    /\ figure (render_message m) = None.
Proof.
  apply (@zero_rows_no_chart Sample.host
           (Sample.env_of Sample.plan_second_class)
           (Sample.idle (lit "Second class?"))
           (Some (Sample.stringify Sample.plan_second_class))
           Sample.plan_second_class (VStr Sample.second_class_query)
           {| ok := true; json := inr (VObj [(lit "data", VArr [])]) |}
           (VObj [(lit "data", VArr [])]));
    reflexivity.
Defined.

(** The gateway refuses the planner's [DELETE] with 403, a reply that is not
    OK; the message appended is nevertheless the plan's answer, not an error
    description. *)
Lemma non_ok_reply_keeps_the_answer :
  (exists queryResponse,
     fetch_query (Sample.env_of Sample.plan_delete)
       (VStr (lit "DELETE FROM titanic")) = inr queryResponse
     /\ ok queryResponse = false)
  /\ content (last (messages (final (run_turn (engine := Sample.host)
                                       (Sample.env_of Sample.plan_delete)
                                       (Sample.idle (lit "Remove everyone")))))
                (greeting 0)) =
     VStr (lit "All passengers have been removed.")
  /\ ~ (exists e,
          last (messages (final (run_turn (engine := Sample.host)
                                   (Sample.env_of Sample.plan_delete)
                                   (Sample.idle (lit "Remove everyone")))))
            (greeting 0) =
          errorMessage Sample.noon e).
Proof.
  split; [|split].
  - eexists. split; reflexivity.
  - reflexivity.
  - intros [e H]. apply (f_equal content) in H. vm_compute in H.
    destruct e; discriminate H.
Qed.

Lemma gateway_failure_paths_witness :
  (messages (final (run_turn (engine := Sample.host)
                      (Sample.env_offline Sample.plan_by_class)
                      (Sample.idle (lit "How many passengers per class?")))) =
     [greeting 0;
      userMessage Sample.noon (lit "How many passengers per class?");
      errorMessage Sample.noon (ErrorObject (lit "Failed to fetch"))]
   /\ isLoading (final (run_turn (engine := Sample.host)
                          (Sample.env_offline Sample.plan_by_class)
                          (Sample.idle (lit "How many passengers per class?")))) = false)
  /\ exists m,
       messages (final (run_turn (engine := Sample.host)
                          (Sample.env_of Sample.plan_delete)
                          (Sample.idle (lit "Remove everyone")))) =
         [greeting 0; userMessage Sample.noon (lit "Remove everyone"); m]
       /\ role m = assistant
       /\ content m = VStr (lit "All passengers have been removed.")
       /\ (forall c, chart m = Some c -> data c = [])
       /\ isLoading (final (run_turn (engine := Sample.host)
                              (Sample.env_of Sample.plan_delete)
                              (Sample.idle (lit "Remove everyone")))) = false.
Proof.
  split.
  - apply (proj1 (@gateway_failure_paths Sample.host
                    (Sample.env_offline Sample.plan_by_class)
                    (Sample.idle (lit "How many passengers per class?"))
                    (Some (Sample.stringify Sample.plan_by_class))
                    Sample.plan_by_class (VStr Sample.example_query)
                    eq_refl eq_refl eq_refl eq_refl eq_refl)
             (ErrorObject (lit "Failed to fetch"))).
    reflexivity.
  - apply (proj2 (@gateway_failure_paths Sample.host
                    (Sample.env_of Sample.plan_delete)
                    (Sample.idle (lit "Remove everyone"))
                    (Some (Sample.stringify Sample.plan_delete))
                    Sample.plan_delete (VStr (lit "DELETE FROM titanic"))
                    eq_refl eq_refl eq_refl eq_refl eq_refl)
             {| ok := false;
                json := inr (VObj [(lit "error",
                                    VStr (lit "Only SELECT queries are allowed"))]) |});
      reflexivity.
Defined.

Lemma waiting_is_reachable : reachable (engine := Sample.host) Sample.waiting.
Proof.
  eapply reach_step.
  - eapply reach_step.
    + apply (reach_initial 0).
    + apply (step_change (lit "How many passengers per class?")).
  - apply (step_submit Sample.noon Sample.typed).
Defined.

Lemma one_turn_in_flight_witness :
  List.length (pending Sample.waiting) <= 1
  /\ (isLoading (app Sample.waiting) = true <-> pending Sample.waiting <> [])
  /\ (isLoading (app Sample.waiting) = true ->
      forall clk, handleSubmit clk (app Sample.waiting) = (app Sample.waiting, None))
  /\ (forall s',
        step (engine := Sample.host) Sample.waiting s' ->
        pending Sample.waiting <> [] -> pending s' = [] ->
        isLoading (app s') = false
        /\ forall clk,
             truthy (VStr (trim (input (app s')))) = true ->
             handleSubmit clk (app s') =
             (submitted clk (app s'), Some (AwaitingPlan (input (app s'))))).
Proof.
  apply (@one_turn_in_flight Sample.host Sample.waiting).
  apply waiting_is_reachable.
Defined.

End ChatProps.

(* ===================================================================== *)
(** * More on the fragment: [trim] and [startsWith]                        *)
(* ===================================================================== *)

Module TrimFacts.
Import JS.

Lemma trimStart_blank (s : jsstring) :
  forallb is_white_space s = true -> trimStart s = [].
Proof.
  induction s as [|c s IH]; simpl; [reflexivity|].
  intros H. apply andb_true_iff in H as [Hc Hs]. rewrite Hc. apply IH, Hs.
Qed.

Lemma trim_blank (s : jsstring) :
  forallb is_white_space s = true -> trim s = [].
Proof.
  intros H. unfold trim. rewrite (trimStart_blank _ H). reflexivity.
Qed.

(** Leading white space is dropped up to the first other code unit. *)
Lemma trimStart_app_keep (x y : jsstring) (c : N) :
  is_white_space c = false ->
  trimStart (x ++ c :: y) = trimStart x ++ c :: y.
Proof.
  intros Hc. induction x as [|d x IH]; simpl.
  - rewrite Hc. reflexivity.
  - destruct (is_white_space d); [exact IH | reflexivity].
Qed.

(** Trailing white space is dropped from the part that follows the last
    code unit known not to be white space. *)
Lemma trimEnd_app_keep (p r : jsstring) (c : N) :
  is_white_space c = false ->
  trimEnd (p ++ c :: r) = p ++ c :: trimEnd r.
Proof.
  intros Hc. unfold trimEnd.
  rewrite rev_app_distr. simpl. rewrite <- app_assoc. simpl.
  rewrite (trimStart_app_keep _ _ _ Hc).
  rewrite rev_app_distr. simpl. rewrite rev_involutive, <- app_assoc.
  reflexivity.
Qed.

Lemma startsWith_app (p x : jsstring) : startsWith (p ++ x) p = true.
Proof.
  induction p as [|c p IH]; simpl; [destruct x; reflexivity|].
  rewrite N.eqb_refl. exact IH.
Qed.

(** A string that begins with [SELECT] still does once trimmed. *)
Lemma trim_keeps_select (rest : jsstring) :
  startsWith (trim (lit "SELECT" ++ rest)) (lit "SELECT") = true.
Proof.
  unfold trim.
  change (lit "SELECT" ++ rest) with (83%N :: (lit "ELECT" ++ rest)).
  change (trimStart (83%N :: (lit "ELECT" ++ rest)))
    with (lit "SELEC" ++ 84%N :: rest).
  rewrite trimEnd_app_keep by reflexivity.
  change (lit "SELEC" ++ 84%N :: trimEnd rest)
    with (lit "SELECT" ++ trimEnd rest).
  apply startsWith_app.
Qed.

End TrimFacts.

(* ===================================================================== *)
(** * More on the query gateway                                           *)
(* ===================================================================== *)

Module GatewayMore.
Import JS Gateway.

Section Handler.
Context {engine : Engine}.
Variable db : jsstring -> jsstring + list Row.

(** X1: a [sql] field that is present but falsy ([null], [false], [0],
    [NaN]) is answered 400 like a missing one, and the store is not
    queried. *)
Theorem falsy_sql_is_bad_request (req_body sql : jsval) :
  get req_body (lit "sql") = inr sql ->
  truthy sql = false ->
  fst (serve db req_body) =
    inr {| status := 400;
           body := json_error (VStr (lit "No SQL query provided")) |}
  /\ snd (serve db req_body) = [ConsoleLog sql].
Proof.
  intros H F. rewrite (GatewayProps.falsy_sql db _ _ H F). split; reflexivity.
Qed.

(** The handler on a body that can be destructured, case by case. *)
Lemma serve_cases (req_body sql : jsval) :
  get req_body (lit "sql") = inr sql ->
  (truthy sql = false
   /\ serve db req_body =
      (inr {| status := 400;
              body := json_error (VStr (lit "No SQL query provided")) |},
       [ConsoleLog sql]))
  \/ (truthy sql = true /\ (forall s, sql <> VStr s)
      /\ serve db req_body =
         (inr {| status := 500;
                 body := json_error
                           (VStr (fault_message (NotAFunction "sql.trim"))) |},
          [ConsoleLog sql;
           ConsoleError (TypeError (NotAFunction "sql.trim"))]))
  \/ (exists s,
        sql = VStr s /\ s <> []
        /\ startsWith (toUpperCase (trim s)) (lit "SELECT") = false
        /\ serve db req_body =
           (inr {| status := 403;
                   body := json_error
                             (VStr (lit "Only SELECT queries are allowed")) |},
            [ConsoleLog sql]))
  \/ (exists s rows,
        sql = VStr s /\ s <> []
        /\ startsWith (toUpperCase (trim s)) (lit "SELECT") = true
        /\ db s = inr rows
        /\ serve db req_body =
           (inr {| status := 200; body := json_data rows |},
            [ConsoleLog sql; StoreQuery s]))
  \/ (exists s message,
        sql = VStr s /\ s <> []
        /\ startsWith (toUpperCase (trim s)) (lit "SELECT") = true
        /\ db s = inl message
        /\ serve db req_body =
           (inr {| status := 500; body := json_error (VStr message) |},
            [ConsoleLog sql; StoreQuery s; ConsoleError (ErrorObject message)])).
Proof.
  intros H. destruct (truthy sql) eqn:T.
  2:{ left. split; [reflexivity|]. apply GatewayProps.falsy_sql; assumption. }
  right.
  assert (D : (exists s, sql = VStr s) \/ forall s, sql <> VStr s).
  { destruct sql; try (right; intros s; discriminate).
    left. eexists. reflexivity. }
  destruct D as [(s & ->) | N].
  - right.
    assert (Hs : s <> []) by (apply JSFacts.truthy_nonempty_string, T).
    rewrite (GatewayProps.string_sql db _ _ H Hs).
    destruct (startsWith (toUpperCase (trim s)) (lit "SELECT")) eqn:P.
    + right. unfold try_catch, andThen, prepare_all, emit. simpl.
      destruct (db s) as [message | rows] eqn:E.
      * right. exists s, message. repeat split; assumption.
      * left. exists s, rows. repeat split; assumption.
    + left. exists s. repeat split; assumption.
  - left. repeat split; [exact N|].
    rewrite (GatewayProps.serve_destructured db _ _ H).
    unfold try_catch, try_block. rewrite T. simpl.
    destruct sql; try reflexivity. exfalso. eapply N. reflexivity.
Qed.

(** X2: on every request body other than [null] and [undefined] the
    handler sends a response, with status 200, 400, 403 or 500, and the
    first thing it does is to log the [sql] it received. *)
Theorem every_request_is_answered (req_body : jsval) :
  nullish req_body = false ->
  exists res,
    fst (serve db req_body) = inr res
    /\ In (status res) [200; 400; 403; 500]
    /\ hd_error (snd (serve db req_body)) =
       Some (ConsoleLog (own req_body (lit "sql"))).
Proof.
  intros Hn.
  assert (H : get req_body (lit "sql") = inr (own req_body (lit "sql")))
    by (unfold get; rewrite Hn; reflexivity).
  destruct (serve_cases _ _ H)
    as [(_ & ->) | [(_ & _ & ->) | [(s & _ & _ & _ & ->)
        | [(s & rows & _ & _ & _ & _ & ->) | (s & m & _ & _ & _ & _ & ->)]]]];
    eexists; (split; [reflexivity|]); simpl; auto 6.
Qed.

(** X3: whatever the request, the store is queried at most once, and only
    with the [sql] string exactly as received, after it has passed the
    prefix test. *)
Theorem store_is_queried_only_after_the_test (req_body : jsval) :
  filter is_store_query (snd (serve db req_body)) = []
  \/ exists s,
       get req_body (lit "sql") = inr (VStr s)
       /\ startsWith (toUpperCase (trim s)) (lit "SELECT") = true
       /\ filter is_store_query (snd (serve db req_body)) = [StoreQuery s].
Proof.
  destruct (get req_body (lit "sql")) as [e | sql] eqn:H.
  - left. unfold serve, post_api_query, andThen, lift. rewrite H. reflexivity.
  - destruct (serve_cases _ _ H)
      as [(_ & ->) | [(_ & _ & ->) | [(s & _ & _ & _ & ->)
          | [(s & rows & -> & _ & P & _ & ->) | (s & m & -> & _ & P & _ & ->)]]]];
      try (left; reflexivity);
      right; exists s; repeat split; assumption.
Qed.

(** The host's [toUpperCase] leaves a leading [SELECT] in place, as the one
    of the language does. *)
Hypothesis upper_keeps_select :
  forall t, startsWith t (lit "SELECT") = true ->
            startsWith (toUpperCase t) (lit "SELECT") = true.

(** X4: the test is a textual prefix test: whatever follows a leading
    [SELECT], the whole string is handed to the store. *)
Theorem anything_after_select_reaches_the_store (rest : jsstring) :
  filter is_store_query
    (snd (serve db (VObj [(lit "sql", VStr (lit "SELECT" ++ rest))]))) =
  [StoreQuery (lit "SELECT" ++ rest)].
Proof.
  assert (H : get (VObj [(lit "sql", VStr (lit "SELECT" ++ rest))]) (lit "sql")
              = inr (VStr (lit "SELECT" ++ rest))) by reflexivity.
  assert (P : startsWith (toUpperCase (trim (lit "SELECT" ++ rest))) (lit "SELECT")
              = true)
    by (apply upper_keeps_select, TrimFacts.trim_keeps_select).
  destruct (serve_cases _ _ H)
    as [(T & _) | [(_ & N & _) | [(s & E & _ & Q & _)
        | [(s & rows & E & _ & _ & _ & ->) | (s & m & E & _ & _ & _ & ->)]]]].
  - discriminate T.
  - exfalso. eapply N. reflexivity.
  - assert (Es : s = lit "SELECT" ++ rest) by congruence. subst s.
    rewrite P in Q. discriminate Q.
  - assert (Es : s = lit "SELECT" ++ rest) by congruence. subst s. reflexivity.
  - assert (Es : s = lit "SELECT" ++ rest) by congruence. subst s. reflexivity.
Qed.

End Handler.

Section Blank.
Context {engine : Engine}.
Variable db : jsstring -> jsstring + list Row.

(** The host's [toUpperCase] maps the empty string to a string that does
    not begin with [SELECT] (the one of the language maps it to itself). *)
Hypothesis upper_of_empty :
  startsWith (toUpperCase []) (lit "SELECT") = false.

(** X5: a [sql] made of white space only is not "missing": it is answered
    403, not 400. *)
Theorem blank_sql_is_forbidden (req_body : jsval) (s : jsstring) :
  get req_body (lit "sql") = inr (VStr s) ->
  s <> [] ->
  forallb is_white_space s = true ->
  serve db req_body =
  (inr {| status := 403;
          body := json_error (VStr (lit "Only SELECT queries are allowed")) |},
   [ConsoleLog (VStr s)]).
Proof.
  intros H Hs Hb. rewrite (GatewayProps.string_sql db _ _ H Hs).
  rewrite (TrimFacts.trim_blank _ Hb), upper_of_empty. reflexivity.
Qed.

End Blank.

(** ** On concrete requests *)

Lemma falsy_sql_is_bad_request_witness :
  fst (serve (engine := Sample.host) Sample.store (Sample.request VNull)) =
    inr {| status := 400;
           body := json_error (VStr (lit "No SQL query provided")) |}
  /\ snd (serve (engine := Sample.host) Sample.store (Sample.request VNull)) =
     [ConsoleLog VNull].
Proof.
  apply (@falsy_sql_is_bad_request Sample.host Sample.store
           (Sample.request VNull) VNull); reflexivity.
Defined.

Lemma every_request_is_answered_witness :
  exists res,
    fst (serve (engine := Sample.host) Sample.store (VArr [])) = inr res
    /\ In (status res) [200; 400; 403; 500]
    /\ hd_error (snd (serve (engine := Sample.host) Sample.store (VArr []))) =
       Some (ConsoleLog VUndefined).
Proof.
  apply (@every_request_is_answered Sample.host Sample.store (VArr [])).
  reflexivity.
Defined.

Lemma host_upper_keeps_select (t : jsstring) :
  startsWith t (lit "SELECT") = true ->
  startsWith (Sample.toUpperCase_ascii t) (lit "SELECT") = true.
Proof.
  intros H.
  destruct t as [|c1 [|c2 [|c3 [|c4 [|c5 [|c6 t]]]]]]; simpl in H;
    repeat (apply andb_true_iff in H as [E H]; apply N.eqb_eq in E; subst);
    try discriminate H.
  destruct t; reflexivity.
Defined.

Lemma anything_after_select_reaches_the_store_witness :
  filter is_store_query
    (snd (serve (engine := Sample.host) Sample.store
            (VObj [(lit "sql", VStr (lit "SELECT" ++ lit " 1; DROP TABLE titanic"))]))) =
  [StoreQuery (lit "SELECT" ++ lit " 1; DROP TABLE titanic")].
Proof.
  apply (@anything_after_select_reaches_the_store Sample.host Sample.store
           host_upper_keeps_select (lit " 1; DROP TABLE titanic")).
Defined.

Lemma blank_sql_is_forbidden_witness :
  serve (engine := Sample.host) Sample.store (Sample.request (VStr (lit "   "))) =
  (inr {| status := 403;
          body := json_error (VStr (lit "Only SELECT queries are allowed")) |},
   [ConsoleLog (VStr (lit "   "))]).
Proof.
  apply (@blank_sql_is_forbidden Sample.host Sample.store eq_refl
           (Sample.request (VStr (lit "   "))) (lit "   "));
    [reflexivity | discriminate | reflexivity].
Defined.

End GatewayMore.

(* ===================================================================== *)
(** * More on the chat orchestrator                                       *)
(* ===================================================================== *)

Module ChatMore.
Import JS Chat.

Section Orchestrator.
Context {engine : Engine}.

(** ** The guard of [handleSubmit] and the send button *)

(** X6: an input that is empty or made of white space only is not
    submitted: the state is left as it is and no request starts. *)
Theorem blank_input_is_ignored (clk : Clock) (st : State) :
  forallb is_white_space (input st) = true ->
  handleSubmit clk st = (st, None).
Proof.
  intros H. unfold handleSubmit. rewrite (TrimFacts.trim_blank _ H).
  reflexivity.
Qed.

(** X7: the send button is disabled in exactly the states in which
    [handleSubmit] would ignore the submission. *)
Theorem button_mirrors_the_guard (clk : Clock) (st : State) :
  View.submit_disabled st = true <-> handleSubmit clk st = (st, None).
Proof.
  unfold View.submit_disabled, handleSubmit.
  destruct (negb (truthy (VStr (trim (input st)))) || isLoading st); split;
    intros H; try reflexivity; discriminate H.
Qed.

(** ** The history *)

Lemma step_appends (s s' : System) :
  step s s' ->
  exists l, messages (app s') = messages (app s) ++ l /\ List.length l <= 1.
Proof.
  assert (settled : forall clk r st,
             exists l,
               messages (fst (settle clk r st)) = messages st ++ l
               /\ List.length l <= 1).
  { intros clk r st.
    destruct (ChatProps.settle_cases clk r st) as [(a & _ & ->) | (m & _ & ->)].
    - exists []. rewrite app_nil_r. split; [reflexivity | simpl; lia].
    - exists [m]. split; [reflexivity | simpl; lia]. }
  intros H.
  destruct H as [v s | clk s | clk o inp pre post st
                 | clk o result q pre post st | clk result resp pre post st];
    cbn [app resumed]; try apply settled.
  - exists []. rewrite app_nil_r. split; [reflexivity | simpl; lia].
  - unfold handleSubmit.
    destruct (negb (truthy (VStr (trim (input (app s))))) || isLoading (app s)).
    + exists []. rewrite app_nil_r. split; [reflexivity | simpl; lia].
    + eexists. split; [reflexivity | simpl; lia].
Qed.

(** X8: the history is append-only: whatever the component does between
    two states, the earlier history is a prefix of the later one. *)
Theorem history_is_append_only (s s' : System) :
  clos_refl_trans System step s s' ->
  exists l, messages (app s') = messages (app s) ++ l.
Proof.
  induction 1 as [s s' H | s | s s1 s' _ [l1 E1] _ [l2 E2]].
  - destruct (step_appends s s' H) as (l & E & _). exists l. exact E.
  - exists []. rewrite app_nil_r. reflexivity.
  - exists (l1 ++ l2). rewrite E2, E1, app_assoc. reflexivity.
Qed.

Lemma paired_answer (history : list Message) (m : Message) :
  role m = assistant ->
  paired history true -> paired (history ++ [m]) false.
Proof.
  intros Hm (t0 & turns & tail & -> & Hturns & [[? _] | [_ (u & -> & Hu)]]);
    [discriminate|].
  exists t0, (turns ++ [(u, m)]), []. repeat split.
  - rewrite flat_map_app. simpl. rewrite !app_nil_r, <- app_assoc. reflexivity.
  - apply Forall_app. split; [exact Hturns|]. constructor; [|constructor].
    split; assumption.
  - left. split; reflexivity.
Qed.

Lemma paired_question (history : list Message) (u : Message) :
  role u = user ->
  paired history false -> paired (history ++ [u]) true.
Proof.
  intros Hu (t0 & turns & tail & -> & Hturns & [[_ ->] | [? _]]);
    [|discriminate].
  exists t0, turns, [u]. repeat split.
  - rewrite app_nil_r. reflexivity.
  - exact Hturns.
  - right. split; [reflexivity|]. exists u. split; [reflexivity | exact Hu].
Qed.

Lemma paired_settle clk (r : exc Next) (st : State) :
  (forall m, r = inr (Append m) -> role m = assistant) ->
  isLoading st = true ->
  paired (messages st) true ->
  paired (messages (fst (settle clk r st))) (isLoading (fst (settle clk r st))).
Proof.
  intros Hrole Hl Hp.
  destruct (ChatProps.settle_cases clk r st)
    as [(a & _ & ->) | (m & Hm & ->)]; simpl.
  - rewrite Hl. exact Hp.
  - apply paired_answer; [|exact Hp].
    destruct Hm as [E | (e & _ & ->)]; [apply Hrole, E | reflexivity].
Qed.

(** X9: in every reachable state the history is the greeting followed by
    the finished turns, each a user message answered by exactly one
    assistant message, followed by the question in flight exactly when the
    loading flag is set. *)
Theorem history_alternates (s : System) :
  reachable s -> paired (messages (app s)) (isLoading (app s)).
Proof.
  induction 1 as [t0 | s s' Hr IH Hstep].
  - exists t0, [], []. repeat split; [constructor | left; split; reflexivity].
  - pose proof (ChatProps.flag_tracks_pending s Hr) as Hflag.
    assert (loading : forall pre a post st,
               s = {| app := st; pending := pre ++ a :: post |} ->
               isLoading st = true).
    { intros pre a post st ->. simpl in Hflag.
      destruct Hflag as [[_ E] | [Hl _]]; [destruct pre; discriminate | exact Hl]. }
    destruct Hstep as [v s | clk s | clk o inp pre post st
                       | clk o result q pre post st | clk result resp pre post st].
    + exact IH.
    + cbn [app]. destruct (accepted (app s)) eqn:Ha.
      * rewrite (ChatProps.handleSubmit_accepted clk _ Ha). simpl.
        apply paired_question; [reflexivity|].
        unfold accepted in Ha. apply andb_true_iff in Ha as [_ Hl].
        apply negb_true_iff in Hl. rewrite Hl in IH. exact IH.
      * rewrite (ChatProps.handleSubmit_refused clk _ Ha). exact IH.
    + cbn [app resumed]. simpl in IH.
      pose proof (loading _ _ _ _ eq_refl) as Hl. rewrite Hl in IH.
      apply paired_settle; [|exact Hl|exact IH].
      intros m. apply ChatProps.after_plan_role.
    + cbn [app resumed]. simpl in IH.
      pose proof (loading _ _ _ _ eq_refl) as Hl. rewrite Hl in IH.
      apply paired_settle; [|exact Hl|exact IH].
      intros m. apply ChatProps.after_fetch_role.
    + cbn [app resumed]. simpl in IH.
      pose proof (loading _ _ _ _ eq_refl) as Hl. rewrite Hl in IH.
      apply paired_settle; [|exact Hl|exact IH].
      intros m. apply ChatProps.after_body_role.
Qed.

(** ** The requests of a turn *)

Lemma calls_from_body n env st result resp :
  calls (run n env st (AwaitingBody result resp)) = [].
Proof.
  destruct n as [|n]; [reflexivity|]. simpl.
  destruct (ChatProps.settle_cases (at_reply env)
              (after_body (at_reply env) result resp) st)
    as [(a & E & _) | (m & _ & ->)].
  - exfalso. eapply ChatProps.after_body_no_await, E.
  - reflexivity.
Qed.

Lemma calls_from_fetch n env st result q :
  calls (run (S n) env st (AwaitingQueryResult result q)) = [CallGateway q].
Proof.
  simpl.
  destruct (ChatProps.settle_cases (at_reply env)
              (after_fetch (at_reply env) result (fetch_query env q)) st)
    as [(a & E & ->) | (m & _ & ->)].
  - apply ChatProps.after_fetch_await in E as (resp & ->). simpl.
    rewrite calls_from_body. reflexivity.
  - reflexivity.
Qed.

Lemma run_S n env st a :
  run (S n) env st a =
  match settle (at_reply env) (resume env a) st with
  | (st', None) => {| final := st'; calls := call_of a; unfinished := None |}
  | (st', Some a') =>
      {| final := final (run n env st' a');
         calls := call_of a ++ calls (run n env st' a');
         unfinished := unfinished (run n env st' a') |}
  end.
Proof. reflexivity. Qed.

(** X10: a turn makes no request at all (the submission was ignored), or
    one request to the planner with the input as typed, or that request
    followed by one request to the gateway with the query of the parsed
    plan; the gateway is never asked first, nor twice, nor without a
    query. *)
Theorem requests_of_a_turn (env : Env) (st : State) :
  calls (run_turn env st) = []
  \/ calls (run_turn env st) = [CallPlanner (input st)]
  \/ exists text result q,
       planner env (input st) = PlannerResponse text
       /\ JSON_parse (text_or_empty_object text) = inr result
       /\ get result (lit "sql") = inr q
       /\ truthy q = true
       /\ calls (run_turn env st) = [CallPlanner (input st); CallGateway q].
Proof.
  destruct (accepted st) eqn:Ha.
  2:{ left. unfold run_turn.
      rewrite (ChatProps.handleSubmit_refused _ _ Ha). reflexivity. }
  right. rewrite (ChatProps.run_turn_accepted _ _ Ha), run_S.
  cbn [resume].
  destruct (planner env (input st)) as [e | text] eqn:Hp;
    [left; reflexivity|].
  unfold after_plan.
  destruct (JSON_parse (text_or_empty_object text)) as [e | result] eqn:Hj;
    [left; reflexivity|]. cbn [bind].
  destruct (get result (lit "sql")) as [e | q] eqn:Hq;
    [left; reflexivity|]. cbn [bind].
  destruct (truthy q) eqn:Ht.
  - right. exists text, result, q. repeat split; try assumption.
    cbn [ret settle calls call_of]. rewrite calls_from_fetch. reflexivity.
  - left. destruct (assistantMessage (at_reply env) result []); reflexivity.
Qed.

(** X11: when the planner call throws, when its text does not parse, or
    when the parsed plan is [null], the gateway is not called; the turn
    ends with the error message for what was thrown, and the loading flag
    is cleared. *)
Theorem planner_failure_is_reported (env : Env) (st : State) (e : thrown) :
  accepted st = true ->
  planner env (input st) = PlannerThrows e
  \/ (exists text,
        planner env (input st) = PlannerResponse text
        /\ (JSON_parse (text_or_empty_object text) = inl e
            \/ exists result,
                 JSON_parse (text_or_empty_object text) = inr result
                 /\ get result (lit "sql") = inl e)) ->
  run_turn env st =
  {| final := setIsLoading false
                (setMessages_append (errorMessage (at_reply env) e)
                   (submitted (at_submit env) st));
     calls := [CallPlanner (input st)];
     unfinished := None |}.
Proof.
  intros Ha H. rewrite (ChatProps.run_turn_accepted _ _ Ha). cbn [run resume].
  destruct H as [-> | (text & -> & [Hj | (result & Hj & Hq)])].
  - reflexivity.
  - unfold after_plan. rewrite Hj. reflexivity.
  - unfold after_plan. rewrite Hj. cbn [bind]. rewrite Hq. reflexivity.
Qed.

Section EmptyText.

(** The host's [JSON.parse] reads [{}] as the empty object. *)
Hypothesis parse_empty_object : JSON_parse (lit "{}") = inr (VObj []).

(** X12: when the planner's response has no text, or an empty one, the
    turn does not fail: [{}] is parsed in its place, the gateway is not
    called, and an assistant message without content and without query is
    appended, whose chart has neither type nor data points. *)
Theorem empty_plan_text_gives_an_empty_message (env : Env) (st : State)
  (text : option jsstring) :
  accepted st = true ->
  planner env (input st) = PlannerResponse text ->
  text = None \/ text = Some [] ->
  run_turn env st =
  {| final := setIsLoading false
                (setMessages_append
                   {| id := decimal_Z (Date_now (at_reply env) + 1);
                      role := assistant;
                      content := VUndefined;
                      chart := Some {| directive := []; data := [] |};
                      sql := VUndefined;
                      timestamp := new_Date (at_reply env) |}
                   (submitted (at_submit env) st));
     calls := [CallPlanner (input st)];
     unfinished := None |}.
Proof.
  intros Ha Hp Ht. rewrite (ChatProps.run_turn_accepted _ _ Ha).
  cbn [run resume]. rewrite Hp. unfold after_plan.
  assert (E : text_or_empty_object text = lit "{}")
    by (destruct Ht; subst; reflexivity).
  rewrite E, parse_empty_object. reflexivity.
Qed.

End EmptyText.

(** ** What is drawn *)

Lemma lookup_remove_key (k k' : jsstring) (props : list (jsstring * jsval)) :
  str_eqb k k' = false ->
  lookup k (remove_key k' props) = lookup k props.
Proof.
  intros Hk. induction props as [|[k0 v] props IH]; simpl; [reflexivity|].
  destruct (str_eqb k' k0) eqn:E.
  - apply JSFacts.str_eqb_eq in E. subst k0. rewrite Hk. exact IH.
  - simpl. rewrite IH. reflexivity.
Qed.

Lemma lookup_indexed (k : jsstring) (i : nat) (l : list jsval) :
  at_index k i l =
  match lookup k (indexed i l) with
  | Some x => x
  | None => VUndefined
  end.
Proof.
  revert i. induction l as [|x l IH]; intros i; simpl; [reflexivity|].
  destruct (str_eqb k (decimal i)); [reflexivity | apply IH].
Qed.

(** A property read from the copy [{ ...chart, data }] is the one read from
    the chart directive itself. *)
Lemma own_of_copy (c : jsval) (k : jsstring) :
  str_eqb k (lit "data") = false ->
  str_eqb k (lit "length") = false ->
  own (VObj (remove_key (lit "data") (spread c))) k = get_opt c k.
Proof.
  intros Hd Hl. unfold own at 1. rewrite (lookup_remove_key _ _ _ Hd).
  destruct c; cbn [spread get_opt nullish own lookup]; try reflexivity;
    rewrite Hl, lookup_indexed; reflexivity.
Qed.

(** X13: for an assistant message built with at least one data point, what
    is drawn depends on the [type] of the plan's chart directive alone:
    nothing for ["none"], a bar chart for ["bar"], a pie chart for ["pie"],
    and a line chart otherwise, also for an unknown type and for a plan
    without chart directive; the title is the directive's, the points are
    the message's. *)
Theorem figure_of_the_assistant_message (clk : Clock) (result : jsval)
  (chartData : list ChartData) (m : Message) :
  assistantMessage clk result chartData = inr m ->
  chartData <> [] ->
  figure (render_message m) =
  let type := get_opt (own result (lit "chart")) (lit "type") in
  if strict_eq_str type (lit "none") then None
  else Some {| kind := if strict_eq_str type (lit "bar") then BarChart
                       else if strict_eq_str type (lit "pie") then PieChart
                       else LineChart;
               title := get_opt (own result (lit "chart")) (lit "title");
               points := chartData |}.
Proof.
  intros Hm Hne. unfold assistantMessage, bind, ret in Hm.
  destruct (get result (lit "answer")) as [|answer] eqn:Ea; [discriminate|].
  destruct (ChatProps.get_inr _ _ _ Ea) as [Hn _].
  rewrite !(ChatProps.get_present _ _ Hn) in Hm.
  injection Hm as <-. unfold render_message. cbn [figure chart].
  set (c := own result (lit "chart")).
  unfold strict_eq_str at 1.
  destruct (strict_neq_str (get_opt c (lit "type")) (lit "none")) eqn:Et;
    [|reflexivity].
  unfold renderChart. cbn [directive data negb].
  rewrite !own_of_copy by reflexivity.
  unfold strict_eq_str at 1. rewrite Et. cbn [negb orb].
  destruct chartData; [contradiction | reflexivity].
Qed.

(** ** Data points for any table of scalars *)

Lemma own_scalar (row : list (jsstring * jsval)) (k : jsstring) :
  Forall (fun cell => scalar (snd cell) = true) row ->
  scalar (own (VObj row) k) = true.
Proof.
  intros H. simpl. induction H as [|[k0 v] row Hv _ IH]; simpl; [reflexivity|].
  destruct (str_eqb k k0); [exact Hv | exact IH].
Qed.

Lemma point_of_scalars (keys : list jsstring) (row : list (jsstring * jsval)) :
  Forall (fun cell => scalar (snd cell) = true) row ->
  exists point, point_of keys (VObj row) = inr point.
Proof.
  intros H. unfold point_of, get, bind, ret. cbn [nullish].
  destruct (ChatProps.String_scalar _ (own_scalar row (nth 0 keys []) H))
    as (s & ->).
  destruct (ChatProps.Number_scalar _ (own_scalar row (nth 1 keys []) H))
    as (n & ->).
  eexists. reflexivity.
Qed.

Lemma points_of_scalars (keys : list jsstring)
  (rows : list (list (jsstring * jsval))) :
  Forall (fun row => Forall (fun cell => scalar (snd cell) = true) row) rows ->
  exists chartData,
    mapM (point_of keys) (List.map VObj rows) = inr chartData
    /\ List.length chartData = List.length rows.
Proof.
  induction 1 as [|row rows Hrow _ (cd & E & L)].
  - exists []. split; reflexivity.
  - destruct (point_of_scalars keys row Hrow) as (p & Ep).
    exists (p :: cd). simpl. rewrite Ep. simpl. rewrite E. simpl.
    split; [reflexivity | rewrite L; reflexivity].
Qed.

Lemma chartData_of_scalars (rows : list (list (jsstring * jsval))) :
  Forall (fun row => Forall (fun cell => scalar (snd cell) = true) row) rows ->
  exists chartData,
    chartData_of (VArr (List.map VObj rows)) = inr chartData
    /\ List.length chartData =
       if 2 <=? List.length (hd [] rows) then List.length rows else 0.
Proof.
  intros H. destruct rows as [|row rows].
  - exists []. split; reflexivity.
  - unfold chartData_of, length_positive, bind, ret.
    cbn [truthy List.map hd].
    change (0 <? List.length (VObj row :: List.map VObj rows)) with true.
    change (own (VArr (VObj row :: List.map VObj rows)) (lit "0"))
      with (VObj row).
    cbn [Object_keys ret]. rewrite length_map.
    destruct (2 <=? List.length row).
    + apply (points_of_scalars (List.map fst row) (row :: rows) H).
    + exists []. split; reflexivity.
Qed.

(** X14: for rows of scalars, whether or not they all have the same
    columns, the orchestrator does not throw; it yields one data point per
    row when the first row has at least two columns, and no data point at
    all when it has fewer. *)
Theorem points_are_counted_by_the_first_row
  (rows : list (list (jsstring * jsval))) :
  Forall (fun row => Forall (fun cell => scalar (snd cell) = true) row) rows ->
  exists chartData,
    chartData_of (VArr (List.map VObj rows)) = inr chartData
    /\ List.length chartData =
       if 2 <=? List.length (hd [] rows) then List.length rows else 0.
Proof. apply chartData_of_scalars. Qed.

End Orchestrator.

(** ** On concrete states *)

Lemma blank_input_is_ignored_witness :
  handleSubmit Sample.noon (Sample.idle (lit "   ")) =
  (Sample.idle (lit "   "), None).
Proof.
  apply (blank_input_is_ignored Sample.noon (Sample.idle (lit "   "))).
  reflexivity.
Defined.

Lemma history_is_append_only_witness :
  exists l,
    messages (app Sample.waiting) = messages (app Sample.typed) ++ l.
Proof.
  apply (@history_is_append_only Sample.host Sample.typed Sample.waiting).
  apply rt_step. apply (step_submit Sample.noon Sample.typed).
Defined.

Lemma history_alternates_witness :
  paired (messages (app Sample.waiting)) (isLoading (app Sample.waiting)).
Proof.
  apply (@history_alternates Sample.host Sample.waiting).
  apply ChatProps.waiting_is_reachable.
Defined.

Lemma planner_failure_is_reported_witness :
  run_turn (engine := Sample.host)
    (Sample.env_with (PlannerThrows (ErrorObject (lit "API key not valid"))))
    (Sample.idle (lit "Hello")) =
  {| final :=
       {| input := [];
          messages := [greeting 0; userMessage Sample.noon (lit "Hello");
                       errorMessage Sample.later
                         (ErrorObject (lit "API key not valid"))];
          isLoading := false |};
     calls := [CallPlanner (lit "Hello")];
     unfinished := None |}.
Proof.
  apply (@planner_failure_is_reported Sample.host
           (Sample.env_with (PlannerThrows (ErrorObject (lit "API key not valid"))))
           (Sample.idle (lit "Hello")) (ErrorObject (lit "API key not valid"))).
  - reflexivity.
  - left. reflexivity.
Defined.

Lemma empty_plan_text_gives_an_empty_message_witness :
  run_turn (engine := Sample.host) (Sample.env_with (PlannerResponse None))
    (Sample.idle (lit "Hello")) =
  {| final :=
       {| input := [];
          messages :=
            [greeting 0; userMessage Sample.noon (lit "Hello");
             {| id := decimal_Z 1700000000851;
                role := assistant;
                content := VUndefined;
                chart := Some {| directive := []; data := [] |};
                sql := VUndefined;
                timestamp := 1700000000850 |}];
          isLoading := false |};
     calls := [CallPlanner (lit "Hello")];
     unfinished := None |}.
Proof.
  apply (@empty_plan_text_gives_an_empty_message Sample.host eq_refl
           (Sample.env_with (PlannerResponse None)) (Sample.idle (lit "Hello"))
           None).
  - reflexivity.
  - reflexivity.
  - left. reflexivity.
Defined.

Lemma figure_of_the_assistant_message_witness :
  figure (render_message
            {| id := decimal_Z 1700000000001;
               role := assistant;
               content := VStr (lit "Two classes.");
               chart := Some {| directive := [];
                                data := [{| name := lit "1"; value := number_of_Z 3 |}] |};
               sql := VStr Sample.example_query;
               timestamp := 1700000000000 |}) =
  Some {| kind := LineChart;
          title := VUndefined;
          points := [{| name := lit "1"; value := number_of_Z 3 |}] |}.
Proof.
  apply (@figure_of_the_assistant_message Sample.host Sample.noon
           (VObj [(lit "answer", VStr (lit "Two classes."));
                  (lit "sql", VStr Sample.example_query)])
           [{| name := lit "1"; value := number_of_Z 3 |}]).
  - reflexivity.
  - discriminate.
Defined.

Lemma points_are_counted_by_the_first_row_witness :
  exists chartData,
    chartData_of (engine := Sample.host)
      (VArr (List.map VObj
               [[(lit "Sex", VStr (lit "female")); (lit "n", VNum (number_of_Z 2))];
                [(lit "Age", VNull)]]))
    = inr chartData
    /\ List.length chartData = 2.
Proof.
  apply (@points_are_counted_by_the_first_row Sample.host
           [[(lit "Sex", VStr (lit "female")); (lit "n", VNum (number_of_Z 2))];
            [(lit "Age", VNull)]]).
  repeat constructor.
Defined.

End ChatMore.

(* ===================================================================== *)
(** * The keys of the messages                                            *)
(* ===================================================================== *)

Module Keys.
Import JS Chat.

Lemma lit_inj (a b : string) : lit a = lit b -> a = b.
Proof.
  unfold lit. intros H.
  apply (f_equal (List.map ascii_of_N)) in H. rewrite !map_map in H.
  rewrite !(map_ext _ (fun a => a) ascii_N_embedding), !map_id in H.
  apply (f_equal string_of_list_ascii) in H.
  rewrite !string_of_list_ascii_of_string in H. exact H.
Qed.

Lemma to_int_not_nil (z : Z) :
  Z.to_int z <> Decimal.Pos Decimal.Nil /\ Z.to_int z <> Decimal.Neg Decimal.Nil.
Proof.
  split; intros H; pose proof (DecimalZ.of_to z) as E; rewrite H in E;
    simpl in E; subst z; discriminate H.
Qed.

(** Different integers print differently. *)
Lemma decimal_Z_inj (a b : Z) : decimal_Z a = decimal_Z b -> a = b.
Proof.
  unfold decimal_Z. intros H. apply lit_inj in H.
  apply (f_equal NilZero.int_of_string) in H.
  destruct (to_int_not_nil a) as [Ha1 Ha2].
  destruct (to_int_not_nil b) as [Hb1 Hb2].
  rewrite !NilZero.isi in H by assumption.
  injection H as H. apply DecimalZ.to_int_inj, H.
Qed.

Section Orchestrator.
Context {engine : Engine}.

Lemma assistantMessage_id clk result chartData m :
  assistantMessage clk result chartData = inr m ->
  id m = decimal_Z (Date_now clk + 1).
Proof.
  unfold assistantMessage, bind, ret.
  destruct (get result (lit "answer")); [discriminate|].
  destruct (get result (lit "chart")); [discriminate|].
  destruct (get result (lit "sql")); [discriminate|].
  intros H. injection H as <-. reflexivity.
Qed.

Lemma resume_id env a m :
  resume env a = inr (Append m) ->
  id m = decimal_Z (Date_now (at_reply env) + 1).
Proof.
  destruct a as [inp | result q | result resp]; cbn [resume].
  - destruct (planner env inp) as [e|text]; simpl; [discriminate|].
    unfold bind, ret.
    destruct (JSON_parse _) as [|result]; [discriminate|].
    destruct (get result (lit "sql")) as [|q]; [discriminate|].
    destruct (truthy q); [discriminate|].
    destruct (assistantMessage _ result []) as [|m'] eqn:E; [discriminate|].
    intros H. injection H as <-. eapply assistantMessage_id, E.
  - unfold after_fetch, bind, ret.
    destruct (fetch_query env q) as [|resp]; [discriminate|].
    destruct (ok resp); [discriminate|].
    destruct (assistantMessage _ result []) as [|m'] eqn:E; [discriminate|].
    intros H. injection H as <-. eapply assistantMessage_id, E.
  - unfold after_body, bind, ret.
    destruct (json resp) as [|reply]; [discriminate|].
    destruct (get reply (lit "data")) as [|rows]; [discriminate|].
    destruct (chartData_of rows) as [|cd]; [discriminate|].
    destruct (assistantMessage _ result cd) as [|m'] eqn:E; [discriminate|].
    intros H. injection H as <-. eapply assistantMessage_id, E.
Qed.

Lemma run_answer_id fuel env st a :
  rank a <= fuel ->
  exists m,
    id m = decimal_Z (Date_now (at_reply env) + 1)
    /\ final (run fuel env st a) = setIsLoading false (setMessages_append m st).
Proof.
  revert st a. induction fuel as [|fuel IH]; intros st a Hr.
  - destruct a; simpl in Hr; lia.
  - simpl.
    destruct (ChatProps.settle_cases (at_reply env) (resume env a) st)
      as [(a' & Er & ->) | (m & Hm & ->)].
    + apply ChatProps.resume_rank in Er.
      destruct (IH st a') as (m & Hid & Hf); [lia|].
      exists m. split; assumption.
    + exists m. split; [|reflexivity].
      destruct Hm as [Er | (e & _ & ->)]; [eapply resume_id, Er | reflexivity].
Qed.

(** X18: the two messages a turn appends carry different ids, the user
    message the clock reading at the submission and the assistant message
    the reading at the reply plus one, provided the clock has not gone
    backwards in between. *)
Theorem ids_of_a_turn_differ (env : Env) (st : State) :
  accepted st = true ->
  (Date_now (at_submit env) <= Date_now (at_reply env))%Z ->
  exists u m,
    messages (final (run_turn env st)) = messages st ++ [u; m]
    /\ id u = decimal_Z (Date_now (at_submit env))
    /\ id m = decimal_Z (Date_now (at_reply env) + 1)
    /\ id u <> id m.
Proof.
  intros Ha Hclk. rewrite (ChatProps.run_turn_accepted _ _ Ha).
  destruct (run_answer_id 3 env (submitted (at_submit env) st)
              (AwaitingPlan (input st))) as (m & Hid & ->); [simpl; lia|].
  exists (userMessage (at_submit env) (input st)), m.
  rewrite ChatProps.messages_after_turn. repeat split; try assumption.
  rewrite Hid. simpl. intros E. apply decimal_Z_inj in E. lia.
Qed.

End Orchestrator.

Lemma ids_of_a_turn_differ_witness :
  exists u m,
    messages (final (run_turn (engine := Sample.host)
                       (Sample.env_with
                          (PlannerResponse (Some (Sample.stringify Sample.plan_hello))))
                       (Sample.idle (lit "Hello")))) =
      [greeting 0] ++ [u; m]
    /\ id u = decimal_Z 1700000000000
    /\ id m = decimal_Z (1700000000850 + 1)
    /\ id u <> id m.
Proof.
  apply (@ids_of_a_turn_differ Sample.host
           (Sample.env_with
              (PlannerResponse (Some (Sample.stringify Sample.plan_hello))))
           (Sample.idle (lit "Hello"))).
  - reflexivity.
  - simpl. lia.
Defined.

End Keys.

(* ===================================================================== *)
(** * The orchestrator in front of the gateway                            *)
(* ===================================================================== *)

Module EndToEnd.
Import JS Chat.

Section Wiring.
Context {engine : Engine}.
Variable db : jsstring -> jsstring + list Gateway.Row.

(** X15: the gateway never makes the orchestrator's [fetch] throw, and its
    reply is OK only if the query is a string that passed the prefix test
    and the store returned rows for it, which are then the reply's [data];
    every other reply carries no [data]. *)
Theorem reply_of_the_gateway (q : jsval) :
  exists res,
    Deployment.fetch_gateway db q = inr res
    /\ ((ok res = true
         /\ exists s rows,
              q = VStr s
              /\ startsWith (toUpperCase (trim s)) (lit "SELECT") = true
              /\ db s = inr rows
              /\ json res = inr (VObj [(lit "data", VArr (List.map VObj rows))]))
        \/ (ok res = false
            /\ exists message,
                 json res = inr (VObj [(lit "error", message)]))).
Proof.
  unfold Deployment.fetch_gateway.
  assert (H : get (VObj [(lit "sql", q)]) (lit "sql") = inr q) by reflexivity.
  destruct (GatewayMore.serve_cases db _ _ H)
    as [(_ & ->) | [(_ & _ & ->) | [(s & _ & _ & _ & ->)
        | [(s & rows & -> & _ & P & E & ->) | (s & m & _ & _ & _ & _ & ->)]]]];
    eexists; (split; [reflexivity|]);
    try (right; split; [reflexivity | eexists; reflexivity]).
  left. split; [reflexivity|]. exists s, rows. repeat split; assumption.
Qed.

(** The cells of the table are scalars. *)
Hypothesis cells_are_scalars :
  forall s rows,
    db s = inr rows ->
    Forall (fun row => Forall (fun cell => scalar (snd cell) = true) row) rows.

(** X16: in front of this gateway, a turn whose plan was parsed never ends
    in the error path: whether the gateway executes the plan's query,
    refuses it or fails on it, the assistant message is the plan's answer
    with the plan's query attached. *)
Theorem refusals_of_the_gateway_are_not_shown (env : Env) (st : State)
  (text : option jsstring) (result q : jsval) :
  (forall v, fetch_query env v = Deployment.fetch_gateway db v) ->
  accepted st = true ->
  planner env (input st) = PlannerResponse text ->
  JSON_parse (text_or_empty_object text) = inr result ->
  get result (lit "sql") = inr q ->
  exists m,
    messages (final (run_turn env st)) =
      messages st ++ [userMessage (at_submit env) (input st); m]
    /\ role m = assistant
    /\ content m = own result (lit "answer")
    /\ sql m = q.
Proof.
  intros Hg Ha Hp Hj Hq.
  destruct (ChatProps.get_inr _ _ _ Hq) as [Hn Eq].
  assert (built : forall cd, exists m,
             assistantMessage (at_reply env) result cd = inr m
             /\ role m = assistant
             /\ content m = own result (lit "answer")
             /\ sql m = q).
  { intros cd.
    destruct (ChatProps.assistantMessage_defined (at_reply env) result cd Hn)
      as (m & Em & Hrole & Hcontent & Hsql & _).
    exists m. rewrite Eq. repeat split; assumption. }
  destruct (truthy q) eqn:Ht.
  - rewrite (ChatProps.run_turn_query _ _ _ _ _ Ha Hp Hj Hq Ht).
    cbn [final]. rewrite ChatMore.run_S. cbn [resume]. rewrite Hg.
    destruct (reply_of_the_gateway q)
      as (res & -> & [(Hok & s & rows & _ & _ & Hdb & Hjson) | (Hok & message & Hjson)]).
    + unfold after_fetch. cbn [bind]. rewrite Hok. cbn [ret settle final].
      rewrite ChatMore.run_S. cbn [resume]. unfold after_body.
      rewrite Hjson. cbn [bind].
      change (get (VObj [(lit "data", VArr (List.map VObj rows))]) (lit "data"))
        with (@inr thrown jsval (VArr (List.map VObj rows))).
      cbn [bind].
      destruct (ChatMore.chartData_of_scalars rows (cells_are_scalars _ _ Hdb))
        as (cd & -> & _). cbn [bind].
      destruct (built cd) as (m & -> & Hm). cbn [bind ret settle final].
      exists m. rewrite ChatProps.messages_after_turn. split; [reflexivity | exact Hm].
    + unfold after_fetch. cbn [bind]. rewrite Hok.
      destruct (built []) as (m & -> & Hm). cbn [bind ret settle final].
      exists m. rewrite ChatProps.messages_after_turn. split; [reflexivity | exact Hm].
  - destruct (built []) as (m & Em & Hm).
    rewrite (ChatProps.run_turn_no_query _ _ _ _ _ _ Ha Hp Hj Hq Ht Em).
    exists m. cbn [final]. rewrite ChatProps.messages_after_turn.
    split; [reflexivity | exact Hm].
Qed.

End Wiring.

Lemma store_cells_are_scalars (s : jsstring) (rows : list Gateway.Row) :
  Sample.store s = inr rows ->
  Forall (fun row => Forall (fun cell => scalar (snd cell) = true) row) rows.
Proof.
  unfold Sample.store.
  destruct (str_eqb s Sample.example_query).
  - intros H. injection H as <-. repeat constructor.
  - destruct (str_eqb s Sample.second_class_query); [|discriminate].
    intros H. injection H as <-. constructor.
Defined.

Lemma refusals_of_the_gateway_are_not_shown_witness :
  exists m,
    messages (final (run_turn (engine := Sample.host)
                       (Sample.env_of Sample.plan_delete)
                       (Sample.idle (lit "Remove everyone")))) =
      [greeting 0] ++ [userMessage Sample.noon (lit "Remove everyone"); m]
    /\ role m = assistant
    /\ content m = VStr (lit "All passengers have been removed.")
    /\ sql m = VStr (lit "DELETE FROM titanic").
Proof.
  apply (@refusals_of_the_gateway_are_not_shown Sample.host Sample.store
           store_cells_are_scalars
           (Sample.env_of Sample.plan_delete) (Sample.idle (lit "Remove everyone"))
           (Some (Sample.stringify Sample.plan_delete)) Sample.plan_delete
           (VStr (lit "DELETE FROM titanic")));
    reflexivity.
Defined.

End EndToEnd.

(* ===================================================================== *)
(** * The colours of the pie chart                                        *)
(* ===================================================================== *)

Module ViewProps.
Import JS Chat View.

(** X17: every cell of a pie chart gets one of the six colours, however
    many data points there are, one cell per point, and the colours repeat
    with period six. *)
Theorem every_cell_has_a_colour (data : list ChartData) :
  List.length (cell_fills data) = List.length data
  /\ Forall (fun fill => exists c, fill = Some c /\ In c COLORS) (cell_fills data)
  /\ forall index, cell_fill (index + 6) = cell_fill index.
Proof.
  repeat split.
  - unfold cell_fills. rewrite length_map, length_seq. reflexivity.
  - unfold cell_fills. apply Forall_map, Forall_forall. intros i _.
    unfold cell_fill.
    destruct (nth_error COLORS (i mod List.length COLORS)) as [c|] eqn:E.
    + exists c. split; [reflexivity|]. eapply nth_error_In, E.
    + apply nth_error_None in E.
      pose proof (Nat.mod_upper_bound i (List.length COLORS)) as B.
      simpl in *. lia.
  - intros i. unfold cell_fill. change (List.length COLORS) with 6.
    rewrite <- (Nat.Div0.mod_add i 1 6). rewrite Nat.mul_1_l. reflexivity.
Qed.

End ViewProps.

(* ===================================================================== *)
(** * Properties of the loading loop                                      *)
(* ===================================================================== *)

Module BootstrapProps.
Import JS Bootstrap.

Section Load.
Context {engine : Engine}.
Variable DB : Type.
Variable insert_run : DB -> list jsval -> jsstring + DB.

(** X19: a record whose [PassengerId] is missing or falsy ([null], [0], the
    empty string) is skipped without a trace: the load goes on as if the
    record were not in the file. *)
Theorem records_without_id_are_skipped (db : DB) (pre post : list jsval)
  (row : jsval) :
  nullish row = false ->
  truthy (own row (lit "PassengerId")) = false ->
  load DB insert_run db (pre ++ row :: post) = load DB insert_run db (pre ++ post).
Proof.
  intros Hn Hf. revert db. induction pre as [|r pre IH]; intros db.
  - cbn [List.app load]. unfold get. rewrite Hn. cbn [ret]. rewrite Hf.
    reflexivity.
  - cbn [List.app load].
    destruct (get r (lit "PassengerId")) as [|pid]; [reflexivity|].
    destruct (truthy pid); [|apply IH].
    destruct (bindings r) as [|args]; [reflexivity|].
    destruct (insert_run db args) as [|db']; [reflexivity|].
    rewrite IH. reflexivity.
Qed.

(** X20: the first [insert.run] that throws ends the load: the table keeps
    the records inserted before it, and no record after it is inserted, or
    even looked at. *)
Theorem a_failing_insert_ends_the_load (db db1 : DB) (pre post : list jsval)
  (row passengerId : jsval) (done : list (list jsval)) (arg : list jsval)
  (message : jsstring) :
  load DB insert_run db pre =
    {| table := db1; attempted := done; failure := None |} ->
  get row (lit "PassengerId") = inr passengerId ->
  truthy passengerId = true ->
  bindings row = inr arg ->
  insert_run db1 arg = inl message ->
  load DB insert_run db (pre ++ row :: post) =
  {| table := db1; attempted := done ++ [arg];
     failure := Some (ErrorObject message) |}.
Proof.
  intros Hpre Hg Ht Hb Hi. revert db done Hpre.
  induction pre as [|r pre IH]; intros db done Hpre.
  - cbn [load] in Hpre. injection Hpre as -> <-.
    cbn [List.app load]. rewrite Hg, Ht, Hb, Hi. reflexivity.
  - cbn [List.app load]. cbn [load] in Hpre.
    destruct (get r (lit "PassengerId")) as [|pid]; [discriminate|].
    destruct (truthy pid); [|apply IH, Hpre].
    destruct (bindings r) as [|a]; [discriminate|].
    destruct (insert_run db a) as [|db']; [discriminate|].
    destruct (load DB insert_run db' pre) as [t at' f] eqn:E.
    cbn [table attempted failure] in Hpre. injection Hpre as -> <- ->.
    rewrite (IH db' at' E). reflexivity.
Qed.

(** X21: when the load ends without an error, [insert.run] was called once
    for each record with a truthy [PassengerId], in the order of the file,
    with the twelve columns of the record in the order of the [INSERT]
    statement. *)
Theorem a_clean_load_inserts_the_kept_records (db : DB) (rows : list jsval) :
  failure (load DB insert_run db rows) = None ->
  mapM bindings (filter (fun row => truthy (own row (lit "PassengerId"))) rows) =
  inr (attempted (load DB insert_run db rows)).
Proof.
  revert db. induction rows as [|r rows IH]; intros db; [reflexivity|].
  cbn [load filter].
  assert (G : get r (lit "PassengerId") =
              if nullish r
              then inl (TypeError (NullishRead (lit "PassengerId")))
              else inr (own r (lit "PassengerId"))) by reflexivity.
  rewrite G. destruct (nullish r); [discriminate|].
  destruct (truthy (own r (lit "PassengerId"))); [|apply IH].
  destruct (bindings r) as [|args] eqn:Hb; [discriminate|].
  destruct (insert_run db args) as [|db']; [discriminate|].
  cbn [failure attempted]. intros Hf.
  cbn [mapM bind]. rewrite Hb, (IH db' Hf). reflexivity.
Qed.

End Load.

(** ** On a concrete file *)

Lemma records_without_id_are_skipped_witness :
  load (engine := Sample.host) _ Sample.keyed_insert []
    ([Sample.passenger (VNum (number_of_Z 1)) "Braund"]
       ++ Sample.passenger (VNum (number_of_Z 0)) "Nobody"
       :: [Sample.passenger (VNum (number_of_Z 2)) "Cumings"]) =
  load (engine := Sample.host) _ Sample.keyed_insert []
    ([Sample.passenger (VNum (number_of_Z 1)) "Braund"]
       ++ [Sample.passenger (VNum (number_of_Z 2)) "Cumings"]).
Proof.
  apply (@records_without_id_are_skipped Sample.host _ Sample.keyed_insert []
           [Sample.passenger (VNum (number_of_Z 1)) "Braund"]
           [Sample.passenger (VNum (number_of_Z 2)) "Cumings"]
           (Sample.passenger (VNum (number_of_Z 0)) "Nobody"));
    reflexivity.
Defined.

Lemma a_failing_insert_ends_the_load_witness :
  exists first second,
    load (engine := Sample.host) _ Sample.keyed_insert []
      ([Sample.passenger (VNum (number_of_Z 1)) "Braund"]
         ++ Sample.passenger (VNum (number_of_Z 1)) "Braund again"
         :: [Sample.passenger (VNum (number_of_Z 2)) "Cumings"]) =
    {| table := [first]; attempted := [first] ++ [second];
       failure := Some (ErrorObject
                          (lit "UNIQUE constraint failed: titanic.PassengerId")) |}.
Proof.
  do 2 eexists.
  apply (@a_failing_insert_ends_the_load Sample.host _ Sample.keyed_insert
           [] _ [Sample.passenger (VNum (number_of_Z 1)) "Braund"]
           [Sample.passenger (VNum (number_of_Z 2)) "Cumings"]
           (Sample.passenger (VNum (number_of_Z 1)) "Braund again")
           (VNum (number_of_Z 1)) _ _
           (lit "UNIQUE constraint failed: titanic.PassengerId"));
    reflexivity.
Defined.

Lemma a_clean_load_inserts_the_kept_records_witness :
  mapM (bindings (engine := Sample.host))
    (filter (fun row => truthy (own row (lit "PassengerId")))
       [Sample.passenger (VNum (number_of_Z 1)) "Braund";
        Sample.passenger VNull "Nobody";
        Sample.passenger (VNum (number_of_Z 2)) "Cumings"]) =
  inr (attempted
         (load (engine := Sample.host) _ Sample.keyed_insert []
            [Sample.passenger (VNum (number_of_Z 1)) "Braund";
             Sample.passenger VNull "Nobody";
             Sample.passenger (VNum (number_of_Z 2)) "Cumings"])).
Proof.
  apply (@a_clean_load_inserts_the_kept_records Sample.host _ Sample.keyed_insert).
  reflexivity.
Defined.

End BootstrapProps.
